(** * UserComponent and Card: a shallow embedding

  The development follows [src/components/userComponent/UserComponent.tsx]
  (the [UserComponent] function component) and the [Card] component that is
  shipped in the same source file.

  - [JS] models the JavaScript values that travel through the component
    (the payload of [fetchData], the [userData] state) together with the
    three access forms the source uses: [v.k], [v?.k] and [v.map(cb)].
  - [React] models the element tree a function component returns.
  - [UserComponent] holds the query template, the render function and the
    life cycle (effects, timer, fetch continuation) as a step function.
  - [GraphQL] is a reader for the query text, used to say which fields a
    query string asks for. *)

From Stdlib Require Import String Ascii List Bool Arith ZArith Lia.
Import ListNotations.
Open Scope string_scope.
Open Scope list_scope.
Set Warnings "-register-all".

(** ** JavaScript values *)

Module JS.

(** Values as [JSON.parse] builds them, plus [undefined]. An object is the
    list of its own properties; the first binding of a key is the one read.
    A string is the sequence of its code units, one character each. *)
Inductive value : Type :=
| Undefined
| Null
| Boolean (b : bool)
| Num (n : Z)
| Str (s : string)
| Arr (items : list value)
| Obj (fields : list (string * value)).

(** The two [TypeError]s the component can meet: reading a property of
    [null] or [undefined], and calling something that is not a function. *)
Inductive error : Type :=
| TypeErrorRead (base : value) (prop : string)
| TypeErrorNotFunction (prop : string).

(** A completion is either a normal value or a thrown error. *)
Inductive completion (A : Type) : Type :=
| Normal (a : A)
| Throw (e : error).
Arguments Normal {A} a.
Arguments Throw {A} e.

Definition bind {A B} (c : completion A) (k : A -> completion B) : completion B :=
  match c with
  | Normal a => k a
  | Throw e => Throw e
  end.

Definition returns {A} (c : completion A) : bool :=
  match c with
  | Normal _ => true
  | Throw _ => false
  end.

(** [v === null] *)
Definition is_null (v : value) : bool :=
  match v with
  | Null => true
  | _ => false
  end.

(** [v == null]: the test behind [?.] *)
Definition nullish (v : value) : bool :=
  match v with
  | Undefined | Null => true
  | _ => false
  end.

Definition is_array (v : value) : bool :=
  match v with
  | Arr _ => true
  | _ => false
  end.

Fixpoint lookup (k : string) (fields : list (string * value)) : value :=
  match fields with
  | [] => Undefined
  | (k', v) :: rest => if String.eqb k k' then v else lookup k rest
  end.

(** [v.k]. Reading from [null] or [undefined] throws. The property names the
    component reads ([data], [user], [login], [name], [avatarUrl], [url],
    [followers], [following], [totalCount], [repositories], [nodes], [id])
    are on no built-in prototype, so anything that is not an object with
    that own property answers [undefined]. *)
Definition member (v : value) (k : string) : completion value :=
  if nullish v then Throw (TypeErrorRead v k)
  else match v with
       | Obj fields => Normal (lookup k fields)
       | _ => Normal Undefined
       end.

(** [v?.rest]: when [v] is [null] or [undefined] the whole chain that
    follows is skipped and the expression is [undefined]. *)
Definition optional (v : value) (rest : value -> completion value) : completion value :=
  if nullish v then Normal Undefined else rest v.

Fixpoint each {A} (cb : value -> completion A) (items : list value) : completion (list A) :=
  match items with
  | [] => Normal []
  | x :: rest =>
      bind (cb x) (fun y => bind (each cb rest) (fun ys => Normal (y :: ys)))
  end.

(** [v.map(cb)]: only arrays carry a callable [map]; a parsed object may own
    a [map] property but never a function. *)
Definition call_map {A} (v : value) (cb : value -> completion A) : completion (list A) :=
  if nullish v then Throw (TypeErrorRead v "map")
  else match v with
       | Arr items => each cb items
       | _ => Throw (TypeErrorNotFunction "map")
       end.

End JS.

Notation "x <- c ;; k" := (JS.bind c (fun x => k))
(at level 61, c at next level, right associativity).

(** ** React elements *)

Module React.

(** A prop is a string literal, a JavaScript value, or the default export of
    an imported asset module (its URL is chosen by the bundler). *)
Inductive prop : Type :=
| PStr (s : string)
| PVal (v : JS.value)
| PAsset (module : string).

Inductive node : Type :=
| Host (tag : string) (props : list (string * prop)) (children : list node)
| Styled (name : string) (props : list (string * prop)) (children : list node)
| Fragment (children : list node)
| Text (s : string)
| Expr (v : JS.value)
| Many (items : list node)
| SearchBar (filter : string)
| UserRepositories (key : JS.value) (filter : string) (repositories : list JS.value)
| FiGithub.

Definition className (c : string) : string * prop := ("className", PStr c).

(** Observations on a tree, in document order. *)

Section Collect.
Context {A : Type} (here : node -> list A).

Fixpoint collect (n : node) : list A :=
  here n ++
  match n with
  | Host _ _ cs | Styled _ _ cs | Fragment cs | Many cs =>
      (fix go (l : list node) : list A :=
         match l with
         | [] => []
         | c :: rest => collect c ++ go rest
         end) cs
  | _ => []
  end.

End Collect.

Fixpoint prop_of (k : string) (props : list (string * prop)) : option prop :=
  match props with
  | [] => None
  | (k', p) :: rest => if String.eqb k k' then Some p else prop_of k rest
  end.

Definition has_class (c : string) (props : list (string * prop)) : bool :=
  match prop_of "className" props with
  | Some (PStr c') => String.eqb c c'
  | _ => false
  end.

(** Every [<tag ...>] element of the tree, with its props and children. *)
Definition by_tag (tag : string) : node -> list (list (string * prop) * list node) :=
  collect (fun n => match n with
                    | Host t ps cs => if String.eqb t tag then [(ps, cs)] else []
                    | _ => []
                    end).

(** Every element that carries the class [c]. *)
Definition by_class (c : string) : node -> list (string * list node) :=
  collect (fun n => match n with
                    | Host t ps cs => if has_class c ps then [(t, cs)] else []
                    | _ => []
                    end).

(** Every [{expression}] child. *)
Definition expressions : node -> list JS.value :=
  collect (fun n => match n with
                    | Expr v => [v]
                    | _ => []
                    end).

(** Every [<UserRepositories>] element: key, filter, repositories. *)
Definition list_calls : node -> list (JS.value * string * list JS.value) :=
  collect (fun n => match n with
                    | UserRepositories k f rs => [(k, f, rs)]
                    | _ => []
                    end).

Definition search_bars : node -> list string :=
  collect (fun n => match n with
                    | SearchBar f => [f]
                    | _ => []
                    end).

End React.

(** ** The typed payload *)

(** [interface Repository] *)
Module Repository.

Record t : Type := mk { id : string; name : string; url : string }.

Definition to_value (r : t) : JS.value :=
  JS.Obj [("id", JS.Str (id r)); ("name", JS.Str (name r)); ("url", JS.Str (url r))].

End Repository.

(** [interface User] *)
Module User.

Record t : Type := mk {
  login : string;
  name : string;
  avatarUrl : string;
  url : string;
  followers : Z;
  following : Z;
  repositories : list Repository.t
}.

Definition to_value (u : t) : JS.value :=
  JS.Obj [("login", JS.Str (login u));
          ("name", JS.Str (name u));
          ("avatarUrl", JS.Str (avatarUrl u));
          ("url", JS.Str (url u));
          ("followers", JS.Obj [("totalCount", JS.Num (followers u))]);
          ("following", JS.Obj [("totalCount", JS.Num (following u))]);
          ("repositories",
            JS.Obj [("nodes", JS.Arr (map Repository.to_value (repositories u)))])].

(** The response body [{ data: { user: ... } }] for a user, or for none. *)
Definition payload (u : option t) : JS.value :=
  JS.Obj [("data", JS.Obj [("user", match u with
                                    | Some u => to_value u
                                    | None => JS.Null
                                    end)])].

End User.

(** ** UserComponent *)

Module UserComponent.

Import JS React.

Definition dquote : string := String "034"%char EmptyString.

(** [location.pathname.substring(1)] *)
Definition username (pathname : string) : string :=
  substring 1 (String.length pathname - 1) pathname.

(** The template literal of the source, with its one hole. *)
Definition query (username : string) : string :=
  ("query {
        user(login: " ++ dquote ++ username ++ dquote ++ ") {
            login
            name
            avatarUrl
            url
            followers {
                totalCount
            }
            following {
                totalCount
            }
            repositories(first: 50) {
                nodes {
                id
                name
                url
                }
            }
        }
    }")%string.

(** *** State *)

(** The three [useState] cells. *)
Record view : Type := View {
  userData : value;
  filteredRepo : string;
  loading : bool
}.

(** [useState<User | null>(null)], [useState<string>('')],
    [useState<boolean>(false)] *)
Definition initial : view :=
  {| userData := Null; filteredRepo := EmptyString; loading := false |}.

Inductive update : Type :=
| SetUserData (v : value)
| SetFilteredRepo (s : string)
| SetLoading (b : bool).

Definition apply_update (u : update) (v : view) : view :=
  match u with
  | SetUserData d => {| userData := d; filteredRepo := filteredRepo v; loading := loading v |}
  | SetFilteredRepo s => {| userData := userData v; filteredRepo := s; loading := loading v |}
  | SetLoading b => {| userData := userData v; filteredRepo := filteredRepo v; loading := b |}
  end.

(** *** Render *)

(** The callback of [nodes.map]:
    [<UserRepositories key={repository.id} filter={filteredRepo}
       repositories={[repository]} />] *)
Definition repository_item (filter : string) (repository : value) : completion node :=
  key <- member repository "id" ;;
  Normal (UserRepositories key filter [repository]).

(** The third branch of the conditional: the fragment with the profile and
    the repository list. Props and children are evaluated in document order. *)
Definition profile (userData : value) (filteredRepo : string) : completion node :=
  avatarUrl <- optional userData (fun u => member u "avatarUrl") ;;
  login <- optional userData (fun u => member u "login") ;;
  name <- optional userData (fun u => member u "name") ;;
  followers <- optional userData
    (fun u => f <- member u "followers" ;; member f "totalCount") ;;
  following <- optional userData
    (fun u => f <- member u "following" ;; member f "totalCount") ;;
  url <- optional userData (fun u => member u "url") ;;
  repositories <-
    (if nullish userData then Normal (Expr Undefined)
     else r <- member userData "repositories" ;;
          nodes <- member r "nodes" ;;
          items <- call_map nodes (repository_item filteredRepo) ;;
          Normal (Many items)) ;;
  Normal (Fragment
    [Host "div" [className "user__info"]
       [Host "img" [("src", PVal avatarUrl); ("alt", PStr "User Logo");
                    className "user__info__pic"] [];
        Host "div" [className "user__info__global"]
          [Host "p" [className "user__info__global__username"] [Expr login];
           Host "p" [className "user__info__global__name"] [Expr name];
           Host "div" [className "user__info__global__social"]
             [Host "p" [className "user__info__global__social__followers"]
                [Expr followers;
                 Host "span" [className "user__info__global__social__followers__span"]
                   [Text " Followers"]];
              Host "p" [className "user__info__global__social__following"]
                [Expr following;
                 Host "span" [className "user__info__global__social__following__span"]
                   [Text " Following"]]];
           Host "a" [("href", PVal url); ("target", PStr "_blank");
                     className "user__info__global__github"]
             [Host "span" [] [Text "Github Profile"]; Text " "; FiGithub]]];
     Host "div" [className "user__info__repositories"]
       [SearchBar filteredRepo;
        Host "div" [className "user__info__repositories__map"] [repositories]]]).

Definition spinner : node := Host "div" [className "loading-spinner"] [].

Definition not_found : node :=
  Host "img" [("src", PAsset "../../assets/error-404.jpg"); ("alt", PStr "Error 404")] [].

(** The returned JSX: [loading ? spinner : userData === null ? img : <>...</>]
    inside [<UserComponentStyles>]. *)
Definition render (v : view) : completion node :=
  child <- (if loading v then Normal spinner
            else if is_null (userData v) then Normal not_found
            else profile (userData v) (filteredRepo v)) ;;
  Normal (Styled "UserComponentStyles" [] [child]).

(** *** Life cycle *)

(** How a call of [fetchData] settles. *)
Inductive outcome : Type :=
| Resolved (data : value)
| Rejected (reason : string).

(** What the [catch] clause can receive. *)
Inductive caught : Type :=
| Rejection (reason : string)
| Raised (e : error).

(** [console.error(label, error)] *)
Inductive diagnostic : Type :=
| ConsoleError (label : string) (error : caught).

(** One mounted (or torn-down) instance of the component, with what it has
    left in the event loop: the pending [setTimeout] callbacks (by due time,
    in milliseconds) and the [fetchData] calls that have not settled. *)
Record instance : Type := Instance {
  state : view;
  pathname : string;
  mounted : bool;
  clock : nat;
  timers : list nat;
  inflight : list string;
  console : list diagnostic;
  dropped : list update
}.

(** A state setter. React applies it while the component is mounted; on a
    torn-down component the call is still made and has nothing to act on:
    it is kept in [dropped]. *)
Definition set_state (u : update) (c : instance) : instance :=
  if mounted c
  then {| state := apply_update u (state c); pathname := pathname c; mounted := mounted c;
          clock := clock c; timers := timers c; inflight := inflight c;
          console := console c; dropped := dropped c |}
  else {| state := state c; pathname := pathname c; mounted := mounted c;
          clock := clock c; timers := timers c; inflight := inflight c;
          console := console c; dropped := dropped c ++ [u] |}.

Definition console_error (d : diagnostic) (c : instance) : instance :=
  {| state := state c; pathname := pathname c; mounted := mounted c;
     clock := clock c; timers := timers c; inflight := inflight c;
     console := console c ++ [d]; dropped := dropped c |}.

(** [fetchData(query)] is called: one more request in flight. *)
Definition fetchData (q : string) (c : instance) : instance :=
  {| state := state c; pathname := pathname c; mounted := mounted c;
     clock := clock c; timers := timers c; inflight := inflight c ++ [q];
     console := console c; dropped := dropped c |}.

(** [setTimeout(callback, delay)]; the only callback of the component is
    [() => setLoading(false)]. *)
Definition setTimeout (delay : nat) (c : instance) : instance :=
  {| state := state c; pathname := pathname c; mounted := mounted c;
     clock := clock c; timers := timers c ++ [clock c + delay]; inflight := inflight c;
     console := console c; dropped := dropped c |}.

(** [data?.data?.user] *)
Definition user_of (data : value) : completion value :=
  optional data (fun d => inner <- member d "data" ;;
                          optional inner (fun i => member i "user")).

(** The body of [fetchDataUser] after the [await]. *)
Definition fetchDataUser_settled (o : outcome) (c : instance) : instance :=
  match o with
  | Resolved data =>
      match user_of data with
      | Normal user => set_state (SetUserData user) c
      | Throw e => console_error (ConsoleError "Error fetching user data:" (Raised e)) c
      end
  | Rejected reason =>
      console_error (ConsoleError "Error fetching user data:" (Rejection reason)) c
  end.

(** First effect, dependencies [[query]]. *)
Definition fetch_effect (c : instance) : instance :=
  fetchData (query (username (pathname c))) c.

(** Second effect, dependencies [[]]: [setLoading(true)] and a 3000 ms timer.
    The effect returns no cleanup function. *)
Definition loading_effect (c : instance) : instance :=
  setTimeout 3000 (set_state (SetLoading true) c).

(** The first render of a mount, before its effects have run. *)
Definition first_render (path : string) : instance :=
  {| state := initial; pathname := path; mounted := true; clock := 0;
     timers := []; inflight := []; console := []; dropped := [] |}.

(** The mount once both effects have run. *)
Definition mount (path : string) : instance :=
  loading_effect (fetch_effect (first_render path)).

Inductive event : Type :=
| Settle (i : nat) (o : outcome)
| Navigate (path : string)
| Input (text : string)
| Elapse (ms : nat)
| Unmount.

Fixpoint remove_nth {A} (i : nat) (l : list A) : list A :=
  match l, i with
  | [], _ => []
  | _ :: rest, O => rest
  | x :: rest, S j => x :: remove_nth j rest
  end.

Definition with_inflight (l : list string) (c : instance) : instance :=
  {| state := state c; pathname := pathname c; mounted := mounted c;
     clock := clock c; timers := timers c; inflight := l;
     console := console c; dropped := dropped c |}.

Definition with_pathname (p : string) (c : instance) : instance :=
  {| state := state c; pathname := p; mounted := mounted c;
     clock := clock c; timers := timers c; inflight := inflight c;
     console := console c; dropped := dropped c |}.

(** Time passes: every timer that has come due runs its callback. *)
Definition elapse (ms : nat) (c : instance) : instance :=
  let now := clock c + ms in
  let due := filter (fun t => (t <=? now)%nat) (timers c) in
  let later := filter (fun t => negb (t <=? now)%nat) (timers c) in
  fold_left (fun c' _ => set_state (SetLoading false) c') due
    {| state := state c; pathname := pathname c; mounted := mounted c;
       clock := now; timers := later; inflight := inflight c;
       console := console c; dropped := dropped c |}.

(** Tearing down: neither effect registered a cleanup, so nothing that is
    pending is cancelled. *)
Definition unmount (c : instance) : instance :=
  {| state := state c; pathname := pathname c; mounted := false;
     clock := clock c; timers := timers c; inflight := inflight c;
     console := console c; dropped := dropped c |}.

Definition step (c : instance) (e : event) : instance :=
  match e with
  | Settle i o =>
      if (i <? List.length (inflight c))%nat
      then fetchDataUser_settled o (with_inflight (remove_nth i (inflight c)) c)
      else c
  | Navigate path =>
      if mounted c
      then let c' := with_pathname path c in
           if String.eqb (query (username (pathname c))) (query (username path))
           then c'
           else fetch_effect c'
      else c
  | Input text =>
      if mounted c then set_state (SetFilteredRepo text) c else c
  | Elapse ms => elapse ms c
  | Unmount => unmount c
  end.

Definition run (c : instance) (trace : list event) : instance :=
  fold_left step trace c.

Fixpoint elapsed (trace : list event) : nat :=
  match trace with
  | [] => 0
  | Elapse ms :: rest => ms + elapsed rest
  | _ :: rest => elapsed rest
  end.

End UserComponent.

(** ** Card *)

Module Card.

Import React.

Record Props : Type := { name : string; url : string }.

Definition Card (props : Props) : node :=
  let name := name props in
  let url := url props in
  Styled "CardStyles" [("data-testid", PStr "card")]
    [Host "div" [("key", PVal (JS.Str name)); className "card__box"]
       [Host "h3" [className "card__box__title"] [Expr (JS.Str name)];
        Host "a" [className "card__box__url"; ("href", PVal (JS.Str url));
                  ("target", PStr "_blank")]
          [Expr (JS.Str url)]]].

End Card.

(** ** Reading a query text *)

(** What a GraphQL service reads in a query string: the lexical grammar
    (punctuators, names, integers, quoted strings with escapes, ignored white
    space, commas and comments) and the selection-set grammar of an anonymous
    query (fields with an optional alias, arguments and sub-selection).
    Variables, fragments, directives and block strings are not read. *)
Module GraphQL.

Inductive token : Type :=
| LBrace | RBrace | LParen | RParen | Colon
| Name (s : string)
| IntValue (n : N)
| StringValue (s : string)
| Illegal (c : ascii).

Inductive mode : Type :=
| Between
| InName (acc : string)
| InInt (acc : N)
| InString (acc : string)
| InEscape (acc : string)
| InComment.

Definition in_range (lo hi c : ascii) : bool :=
  ((nat_of_ascii lo <=? nat_of_ascii c) && (nat_of_ascii c <=? nat_of_ascii hi))%nat.

Definition is_digit (c : ascii) : bool := in_range "0" "9" c.

Definition is_name_start (c : ascii) : bool :=
  in_range "a" "z" c || in_range "A" "Z" c || Ascii.eqb c "_".

Definition is_line_end (c : ascii) : bool :=
  Ascii.eqb c "010" || Ascii.eqb c "013".

Definition is_ignored (c : ascii) : bool :=
  Ascii.eqb c " " || Ascii.eqb c "009" || is_line_end c || Ascii.eqb c ",".

Definition digit (c : ascii) : N := (N_of_ascii c - 48)%N.

Definition snoc (s : string) (c : ascii) : string := (s ++ String c EmptyString)%string.

(** A character met outside of any token. *)
Definition start (c : ascii) : list token * mode :=
  if is_ignored c then ([], Between)
  else if Ascii.eqb c "#" then ([], InComment)
  else if Ascii.eqb c "{" then ([LBrace], Between)
  else if Ascii.eqb c "}" then ([RBrace], Between)
  else if Ascii.eqb c "(" then ([LParen], Between)
  else if Ascii.eqb c ")" then ([RParen], Between)
  else if Ascii.eqb c ":" then ([Colon], Between)
  else if Ascii.eqb c "034" then ([], InString EmptyString)
  else if is_name_start c then ([], InName (String c EmptyString))
  else if is_digit c then ([], InInt (digit c))
  else ([Illegal c], Between).

(** The character an escape sequence stands for. *)
Definition escaped (c : ascii) : option ascii :=
  if Ascii.eqb c "034" then Some "034"%char
  else if Ascii.eqb c "092" then Some "092"%char
  else if Ascii.eqb c "/" then Some "/"%char
  else if Ascii.eqb c "b" then Some "008"%char
  else if Ascii.eqb c "f" then Some "012"%char
  else if Ascii.eqb c "n" then Some "010"%char
  else if Ascii.eqb c "r" then Some "013"%char
  else if Ascii.eqb c "t" then Some "009"%char
  else None.

Definition advance (m : mode) (c : ascii) : list token * mode :=
  match m with
  | Between => start c
  | InName acc =>
      if is_name_start c || is_digit c then ([], InName (snoc acc c))
      else let (out, m') := start c in (Name acc :: out, m')
  | InInt acc =>
      if is_digit c then ([], InInt (10 * acc + digit c)%N)
      else let (out, m') := start c in (IntValue acc :: out, m')
  | InString acc =>
      if Ascii.eqb c "034" then ([StringValue acc], Between)
      else if Ascii.eqb c "092" then ([], InEscape acc)
      else if is_line_end c then ([Illegal c], Between)
      else ([], InString (snoc acc c))
  | InEscape acc =>
      match escaped c with
      | Some c' => ([], InString (snoc acc c'))
      | None => ([Illegal c], Between)
      end
  | InComment =>
      if is_line_end c then ([], Between) else ([], InComment)
  end.

(** What is still owed when the text ends. *)
Definition finish (m : mode) : list token :=
  match m with
  | Between | InComment => []
  | InName acc => [Name acc]
  | InInt acc => [IntValue acc]
  | InString _ | InEscape _ => [Illegal "034"]
  end.

Fixpoint scan (m : mode) (s : string) : list token * mode :=
  match s with
  | EmptyString => ([], m)
  | String c rest =>
      let (out, m') := advance m c in
      let (more, m'') := scan m' rest in
      (out ++ more, m'')
  end.

Definition tokens (s : string) : list token :=
  let (out, m) := scan Between s in out ++ finish m.

(** *** Selections *)

Inductive argument_value : Type :=
| AInt (n : N)
| AString (s : string)
| AEnum (s : string).

Inductive selection : Type :=
| Field (alias : option string) (name : string)
        (arguments : list (string * argument_value)) (fields : list selection).

Definition leaf (name : string) : selection := Field None name [] [].

Definition read_value (t : token) : option argument_value :=
  match t with
  | IntValue n => Some (AInt n)
  | StringValue s => Some (AString s)
  | Name s => Some (AEnum s)
  | _ => None
  end.

(** After [(]: [name : value] pairs up to the closing [)]. *)
Fixpoint read_arguments (ts : list token)
  : option (list (string * argument_value) * list token) :=
  match ts with
  | RParen :: rest => Some ([], rest)
  | Name n :: Colon :: v :: rest =>
      match read_value v, read_arguments rest with
      | Some a, Some (args, rest') => Some ((n, a) :: args, rest')
      | _, _ => None
      end
  | _ => None
  end.

Definition nonempty {A} (l : list A) : bool :=
  match l with
  | [] => false
  | _ => true
  end.

(** After [{]: fields up to the closing [}]. *)
Fixpoint read_fields (fuel : nat) (ts : list token)
  : option (list selection * list token) :=
  match fuel with
  | O => None
  | S fuel' =>
      match ts with
      | RBrace :: rest => Some ([], rest)
      | Name first :: rest =>
          let '(alias, name, rest1) :=
            match rest with
            | Colon :: Name n :: rest' => (Some first, n, rest')
            | _ => (None, first, rest)
            end in
          let with_arguments :=
            match rest1 with
            | LParen :: rest' =>
                match read_arguments rest' with
                | Some (args, rest'') =>
                    if nonempty args then Some (args, rest'') else None
                | None => None
                end
            | _ => Some ([], rest1)
            end in
          match with_arguments with
          | None => None
          | Some (args, rest2) =>
              let with_fields :=
                match rest2 with
                | LBrace :: rest' =>
                    match read_fields fuel' rest' with
                    | Some (sub, rest'') =>
                        if nonempty sub then Some (sub, rest'') else None
                    | None => None
                    end
                | _ => Some ([], rest2)
                end in
              match with_fields with
              | None => None
              | Some (sub, rest3) =>
                  match read_fields fuel' rest3 with
                  | Some (siblings, rest4) =>
                      Some (Field alias name args sub :: siblings, rest4)
                  | None => None
                  end
              end
          end
      | _ => None
      end
  end.

(** An anonymous query: [query { ... }] or the shorthand [{ ... }], and
    nothing after it. *)
Definition read_document (ts : list token) : option (list selection) :=
  let body :=
    match ts with
    | Name "query" :: LBrace :: rest => Some rest
    | LBrace :: rest => Some rest
    | _ => None
    end in
  match body with
  | None => None
  | Some rest =>
      match read_fields (List.length ts) rest with
      | Some (fields, []) => if nonempty fields then Some fields else None
      | _ => None
      end
  end.

(** The selection a query text asks for, when it is a well-formed query. *)
Definition requested (q : string) : option (list selection) :=
  read_document (tokens q).

(** A text that can stand between two quotes as it is: no quote, no
    backslash, no line end. *)
Fixpoint plain (s : string) : bool :=
  match s with
  | EmptyString => true
  | String c rest =>
      negb (Ascii.eqb c "034") && negb (Ascii.eqb c "092") && negb (is_line_end c)
      && plain rest
  end.

End GraphQL.

(** ** What the specification asks of the query *)

(** The request of the specification: login, display name, avatar URL,
    profile URL, follower count, following count, and up to 50 repositories,
    each with id, name and url, for the given user. *)
Definition profile_request (username : string) : list GraphQL.selection :=
  let leaf := GraphQL.leaf in
  [GraphQL.Field None "user" [("login", GraphQL.AString username)]
     [leaf "login"; leaf "name"; leaf "avatarUrl"; leaf "url";
      GraphQL.Field None "followers" [] [leaf "totalCount"];
      GraphQL.Field None "following" [] [leaf "totalCount"];
      GraphQL.Field None "repositories" [("first", GraphQL.AInt 50)]
        [GraphQL.Field None "nodes" [] [leaf "id"; leaf "name"; leaf "url"]]]].

(** ** Sample data *)

Module Sample.

Import JS UserComponent.

Definition hello_world : Repository.t :=
  Repository.mk "R_1" "Hello-World" "https://github.com/octocat/Hello-World".

Definition spoon_knife : Repository.t :=
  Repository.mk "R_2" "Spoon-Knife" "https://github.com/octocat/Spoon-Knife".

Definition octocat : User.t :=
  User.mk "octocat" "The Octocat" "https://avatars.githubusercontent.com/u/583231"
          "https://github.com/octocat" 100 9 [hello_world; spoon_knife].

(** A user object that carries a login and nothing else. *)
Definition login_only : value := Obj [("login", Str "octocat")].

(** A path whose user name closes the quoted login and opens a second,
    aliased field. *)
Definition injected : string :=
  ("a" ++ dquote ++ ") { id } x: user(login: " ++ dquote ++ "b")%string.

End Sample.

(** ** The sentences of the specification, as predicates *)

Module Spec.

Import JS React UserComponent.

Definition wrapped (n : node) : completion node :=
  Normal (Styled "UserComponentStyles" [] [n]).

(** A fetch fails: it rejects, or its payload holds no user. *)
Definition failed (o : outcome) : bool :=
  match o with
  | Rejected _ => true
  | Resolved data =>
      match user_of data with
      | Normal user => nullish user
      | Throw _ => true
      end
  end.

(** "stores absent and records a diagnostic, so that after the loading phase
    the not-found placeholder is shown": what the sentence asks when the
    [i]-th request in flight settles with [o]. *)
Definition stores_absent_and_logs (c : instance) (i : nat) (o : outcome) : Prop :=
  let c' := step c (Settle i o) in
  userData (state c') = Null
  /\ (exists d, console c' = console c ++ [d])
  /\ (loading (state c') = false -> render (state c') = wrapped not_found).

(** "issues a query that requests exactly the fields ..." *)
Definition requests_profile (username : string) : Prop :=
  GraphQL.requested (query username) = Some (profile_request username).

(** "absent nested fields render as empty rather than raising": what the
    sentence asks of a payload once it is stored and loading is over. *)
Definition renders_without_raising (data : value) : Prop :=
  forall filter,
    match user_of data with
    | Normal user => returns (render (View user filter false)) = true
    | Throw _ => False
    end.

(** "the timer is cancelled on teardown, its continuation never acts on the
    torn-down component" *)
Definition cancelled_on_teardown (c : instance) : Prop :=
  timers (step c Unmount) = []
  /\ forall ms, dropped (run c [Unmount; Elapse ms]) = dropped c.

(** The own property [k] of an object; [undefined] for anything else. *)
Definition own (k : string) (v : value) : value :=
  match v with
  | Obj fields => lookup k fields
  | _ => Undefined
  end.

(** The nested objects the profile branch reads without [?.] are there:
    [followers], [following], and [repositories.nodes] as an array whose
    entries are neither [null] nor [undefined]. *)
Definition nested_present (user : value) : bool :=
  negb (nullish (own "followers" user))
  && negb (nullish (own "following" user))
  && match own "nodes" (own "repositories" user) with
     | Arr items => forallb (fun x => negb (nullish x)) items
     | _ => false
     end.

(** Every fetch of the trace that settles fails: it rejects or answers
    [user: null]. *)
Definition settles_absent (e : event) : bool :=
  match e with
  | Settle _ (Rejected _) => true
  | Settle _ (Resolved data) =>
      match user_of data with
      | Normal Null => true
      | _ => false
      end
  | _ => true
  end.

(** While the component is mounted, either the 3000 ms timer is pending and
    the loading flag is set, or the timer has fired and the flag is down. *)
Definition loading_follows_timer (c : instance) : Prop :=
  mounted c = true ->
  (clock c < 3000 /\ loading (state c) = true /\ timers c = [3000])
  \/ (3000 <= clock c /\ loading (state c) = false /\ timers c = []).

(** On a torn-down component, either the timer is still pending, or its
    callback has run against the torn-down component. *)
Definition timer_survives (c : instance) : Prop :=
  mounted c = false
  /\ ((clock c < 3000 /\ timers c = [3000])
      \/ (3000 <= clock c /\ In (SetLoading false) (dropped c))).

End Spec.

(** ** Traces *)

Module Trace.

Import JS UserComponent.

(** The reasons of the fetches of a trace that reject. *)
Fixpoint rejections (trace : list event) : list string :=
  match trace with
  | [] => []
  | Settle _ (Rejected reason) :: rest => reason :: rejections rest
  | _ :: rest => rejections rest
  end.

(** The text of the last input of a trace; [text] when it has none. *)
Fixpoint last_input (trace : list event) (text : string) : string :=
  match trace with
  | [] => text
  | Input t :: rest => last_input rest t
  | _ :: rest => last_input rest text
  end.

(** A fetch that resolves does so with a payload of the declared shape,
    [{ data: { user: User | null } }]. *)
Definition well_typed (e : event) : Prop :=
  match e with
  | Settle _ (Resolved data) => exists u, data = User.payload u
  | _ => True
  end.

(** The stored profile is [null] or a [User]. *)
Definition profile_typed (c : instance) : Prop :=
  userData (state c) = Null \/ exists u, userData (state c) = User.to_value u.

End Trace.

(** ** Theorems *)

Import JS React UserComponent.

(** *** Shared lemmas *)

Lemma substring_whole : forall s, substring 0 (String.length s) s = s.
Proof.
  induction s as [|c s IH]; simpl; [reflexivity | now rewrite IH].
Qed.

Lemma append_assoc : forall a b c : string,
  ((a ++ b) ++ c = a ++ (b ++ c))%string.
Proof.
  induction a as [|x a IH]; intros b c; simpl; [reflexivity | now rewrite IH].
Qed.

Lemma each_repository_item : forall filter rs,
  each (repository_item filter) (map Repository.to_value rs)
  = Normal (map (fun r => UserRepositories (Str (Repository.id r)) filter
                                          [Repository.to_value r]) rs).
Proof.
  intros filter rs; induction rs as [|r rs IH]; simpl; [reflexivity|].
  rewrite IH; reflexivity.
Qed.

Lemma bind_normal : forall {A B} (c : completion A) (k : A -> completion B) b,
  bind c k = Normal b -> exists a, c = Normal a /\ k a = Normal b.
Proof. intros A B [a|e] k b H; [eauto | discriminate]. Qed.

Lemma profile_is_fragment : forall user filter tree,
  profile user filter = Normal tree -> exists children, tree = Fragment children.
Proof.
  intros user filter tree H. unfold profile in H.
  repeat (apply bind_normal in H; destruct H as (? & _ & H)).
  injection H as <-. eauto.
Qed.

(** The render of a well-typed profile, once loading is over: the profile
    block [info], then the search bar and one list element per repository. *)
Lemma render_user : forall (u : User.t) filter,
  exists info,
    render (View (User.to_value u) filter false)
    = Spec.wrapped (Fragment
        [info;
         Host "div" [className "user__info__repositories"]
           [SearchBar filter;
            Host "div" [className "user__info__repositories__map"]
              [Many (map (fun r => UserRepositories (Str (Repository.id r)) filter
                                                   [Repository.to_value r])
                         (User.repositories u))]]])
    /\ by_tag "img" info
       = [([("src", PVal (Str (User.avatarUrl u))); ("alt", PStr "User Logo");
            className "user__info__pic"], [])]
    /\ expressions info
       = [Str (User.login u); Str (User.name u);
          Num (User.followers u); Num (User.following u)]
    /\ by_tag "a" info
       = [([("href", PVal (Str (User.url u))); ("target", PStr "_blank");
            className "user__info__global__github"],
           [Host "span" [] [Text "Github Profile"]; Text " "; FiGithub])]
    /\ list_calls info = []
    /\ search_bars info = [].
Proof.
  intros u filter. eexists. split.
  - unfold render, profile, User.to_value. cbn -[each map].
    rewrite each_repository_item. reflexivity.
  - repeat split; reflexivity.
Qed.

Lemma list_calls_section : forall filter (rs : list Repository.t) info,
  list_calls info = [] ->
  list_calls (Styled "UserComponentStyles" []
    [Fragment
       [info;
        Host "div" [className "user__info__repositories"]
          [SearchBar filter;
           Host "div" [className "user__info__repositories__map"]
             [Many (map (fun r => UserRepositories (Str (Repository.id r)) filter
                                                  [Repository.to_value r]) rs)]]]])
  = map (fun r => (Str (Repository.id r), filter, [Repository.to_value r])) rs.
Proof.
  intros filter rs info Hinfo. unfold list_calls in *. simpl. rewrite Hinfo. simpl.
  repeat rewrite app_nil_r.
  induction rs as [|r rs IH]; simpl; [reflexivity | now rewrite IH].
Qed.

(** *** The render function *)

(** C10. In the initial view state (no profile, empty filter, loading flag
    false) the render function yields the not-found image, not the spinner;
    the spinner is rendered once the mount effects have set the flag. *)
Theorem first_render_shows_not_found : forall path,
  state (first_render path) = View Null EmptyString false
  /\ render (state (first_render path)) = Spec.wrapped not_found
  /\ render (state (first_render path)) <> Spec.wrapped spinner
  /\ loading (state (mount path)) = true
  /\ render (state (mount path)) = Spec.wrapped spinner.
Proof.
  intros path. repeat split; try reflexivity. discriminate.
Qed.

(** C2. The render follows the priority order: with the loading flag set,
    the spinner and nothing else, whatever the profile; otherwise, with no
    profile ([null]), the not-found image; otherwise the profile view: avatar,
    login, name, follower and following counts, profile link, then the search
    bar and the list of repository elements. For any stored value at all, a
    render that returns is the not-found image exactly when the value is
    [null], and a fragment otherwise; a render that throws was in the third
    branch. *)
Theorem render_priority :
  (forall userData filter,
      render (View userData filter true) = Spec.wrapped spinner)
  /\ (forall filter,
      render (View Null filter false) = Spec.wrapped not_found)
  /\ (forall (u : User.t) filter,
      exists info listing,
        render (View (User.to_value u) filter false)
        = Spec.wrapped (Fragment [info; listing])
        /\ by_tag "img" info
           = [([("src", PVal (Str (User.avatarUrl u))); ("alt", PStr "User Logo");
                className "user__info__pic"], [])]
        /\ expressions info
           = [Str (User.login u); Str (User.name u);
              Num (User.followers u); Num (User.following u)]
        /\ by_tag "a" info
           = [([("href", PVal (Str (User.url u))); ("target", PStr "_blank");
                className "user__info__global__github"],
               [Host "span" [] [Text "Github Profile"]; Text " "; FiGithub])]
        /\ listing
           = Host "div" [className "user__info__repositories"]
               [SearchBar filter;
                Host "div" [className "user__info__repositories__map"]
                  [Many (map (fun r => UserRepositories (Str (Repository.id r)) filter
                                                       [Repository.to_value r])
                             (User.repositories u))]])
  /\ (forall userData filter,
      match render (View userData filter false) with
      | Normal tree =>
          if is_null userData
          then tree = Styled "UserComponentStyles" [] [not_found]
          else exists children,
                 tree = Styled "UserComponentStyles" [] [Fragment children]
      | Throw _ => is_null userData = false
      end).
Proof.
  split; [reflexivity | split; [reflexivity | split]].
  - intros u filter.
    destruct (render_user u filter) as (info & Hr & Himg & Hexpr & Ha & _ & _).
    exists info. eexists. split; [exact Hr |].
    repeat split; assumption.
  - intros userData filter. unfold render. cbn [loading UserComponent.userData filteredRepo].
    destruct (is_null userData) eqn:Hn; [reflexivity |].
    destruct (profile userData filter) as [tree|e] eqn:Hp; cbn [bind]; [| reflexivity].
    apply profile_is_fragment in Hp. destruct Hp as (children & ->). eauto.
Qed.

(** C8. For every repository list of a fetched profile, the render holds one
    [UserRepositories] element per repository, in order; each one is given a
    one-element array holding that repository, the shared filter string, and
    the repository id as key. *)
Theorem one_list_call_per_repository : forall (u : User.t) filter,
  exists tree,
    render (View (User.to_value u) filter false) = Normal tree
    /\ list_calls tree
       = map (fun r => (Str (Repository.id r), filter, [Repository.to_value r]))
             (User.repositories u)
    /\ List.length (list_calls tree) = List.length (User.repositories u).
Proof.
  intros u filter.
  destruct (render_user u filter) as (info & Hr & _ & _ & _ & Hcalls & _).
  eexists. split; [exact Hr |].
  assert (H := list_calls_section filter (User.repositories u) info Hcalls).
  split; [exact H |]. rewrite H. apply length_map.
Qed.

(** C9. For every pair of a name and a url, [Card] returns one card element:
    a single heading that shows the name, and a single link whose text and
    target are both the url and which opens in a new browsing context
    ([target="_blank"]). [Card] is a function of its props alone: it reads no
    state, throws nowhere and performs no effect. *)
Theorem card_renders_name_and_url : forall name url,
  let card := Card.Card {| Card.name := name; Card.url := url |} in
  by_tag "h3" card = [([className "card__box__title"], [Expr (Str name)])]
  /\ by_tag "a" card
     = [([className "card__box__url"; ("href", PVal (Str url)); ("target", PStr "_blank")],
         [Expr (Str url)])]
  /\ expressions card = [Str name; Str url]
  /\ exists box, card = Styled "CardStyles" [("data-testid", PStr "card")] [box].
Proof.
  intros name url card. repeat split. eexists. reflexivity.
Qed.

(** *** The user name and the query text *)

(** C4. The user name is the path without its first character (the leading
    separator) and with nothing else removed; the query text is the template
    with the user name inserted as it is at the place of the hole: the query
    of the empty user name, cut after its 29th character, with the user name
    in between. No character is added or escaped, so each quote of the user
    name is a bare quote of the query. *)
Theorem username_is_spliced_verbatim :
  (forall rest, username (String "/" rest) = rest)
  /\ (forall first rest, username (String first rest) = rest)
  /\ username EmptyString = EmptyString
  /\ (forall u,
        query u
        = (substring 0 29 (query EmptyString) ++ u
           ++ substring 29 (String.length (query EmptyString) - 29) (query EmptyString))%string)
  /\ (forall a b,
        exists before after,
          query (a ++ dquote ++ b)%string
          = (before ++ a ++ dquote ++ b ++ after)%string).
Proof.
  assert (Hu : forall first rest, username (String first rest) = rest).
  { intros first rest. unfold username. simpl.
    rewrite Nat.sub_0_r. apply substring_whole. }
  split; [intros; apply Hu | split; [exact Hu | split; [reflexivity |]]].
  split.
  - intros u. reflexivity.
  - intros a b.
    exists (substring 0 29 (query EmptyString)).
    exists (substring 29 (String.length (query EmptyString) - 29) (query EmptyString)).
    unfold query. rewrite !append_assoc. reflexivity.
Qed.

(** *** Tolerant access *)

Lemma returns_bind : forall {A B} (c : completion A) (k : A -> completion B),
  returns (bind c k) = match c with
                       | Normal a => returns (k a)
                       | Throw _ => false
                       end.
Proof. intros A B [a|e] k; reflexivity. Qed.

Lemma member_present : forall v k,
  nullish v = false -> member v k = Normal (Spec.own k v).
Proof. intros v k H; unfold member; rewrite H; destruct v; reflexivity. Qed.

Lemma member_absent : forall v k,
  nullish v = true -> member v k = Throw (TypeErrorRead v k).
Proof. intros v k H; unfold member; rewrite H; reflexivity. Qed.

Lemma returns_each_item : forall filter items,
  returns (each (repository_item filter) items)
  = forallb (fun x => negb (nullish x)) items.
Proof.
  intros filter items; induction items as [|x items IH]; simpl; [reflexivity|].
  unfold repository_item at 1.
  destruct (nullish x) eqn:Hx.
  - rewrite (member_absent _ _ Hx). reflexivity.
  - rewrite (member_present _ _ Hx). simpl.
    rewrite returns_bind. destruct (each (repository_item filter) items); simpl in *; assumption.
Qed.

Lemma own_of_nullish : forall k v, nullish v = true -> Spec.own k v = Undefined.
Proof. intros k [] H; try discriminate; reflexivity. Qed.

Lemma user_of_total : forall data, exists user, user_of data = Normal user.
Proof.
  intros data. unfold user_of, optional.
  destruct (nullish data) eqn:Hd; [eexists; reflexivity|].
  rewrite (member_present _ _ Hd). simpl.
  destruct (nullish (Spec.own "data" data)) eqn:Hi; [eexists; reflexivity|].
  rewrite (member_present _ _ Hi). eexists; reflexivity.
Qed.

Lemma profile_returns : forall user filter,
  nullish user = false ->
  returns (profile user filter) = Spec.nested_present user.
Proof.
  intros user filter Hu. unfold profile, optional, Spec.nested_present. rewrite Hu.
  rewrite !(member_present user _ Hu). cbn [bind].
  destruct (nullish (Spec.own "followers" user)) eqn:Hf.
  { rewrite (member_absent _ _ Hf). reflexivity. }
  rewrite (member_present _ _ Hf). cbn [bind].
  destruct (nullish (Spec.own "following" user)) eqn:Hg.
  { rewrite (member_absent _ _ Hg). reflexivity. }
  rewrite (member_present _ _ Hg). cbn [bind negb andb].
  destruct (nullish (Spec.own "repositories" user)) eqn:Hr.
  { rewrite (member_absent _ _ Hr). rewrite (own_of_nullish _ _ Hr). reflexivity. }
  rewrite (member_present _ _ Hr). cbn [bind].
  rewrite returns_bind.
  destruct (Spec.own "nodes" (Spec.own "repositories" user)) as [| |b|n|s|items|fields];
    try reflexivity.
  unfold call_map. cbn [nullish].
  rewrite <- (returns_each_item filter items).
  destruct (each (repository_item filter) items); reflexivity.
Qed.

(** C5, amended. Optional access covers the payload wrapper and
    the profile value itself, not the objects nested in a profile:
    [data?.data?.user] never throws; a profile that is [undefined] renders
    the profile branch with every field empty; and for any stored profile the
    render returns exactly when the profile is [null] or [undefined] or
    carries [followers], [following] and an array [repositories.nodes] with
    no [null] or [undefined] entry. Fields missing elsewhere ([login],
    [name], [avatarUrl], [url], [totalCount], a repository's [id]) are
    rendered empty. *)
Theorem optional_access_stops_at_the_profile :
  (forall data, exists user, user_of data = Normal user)
  /\ (forall filter,
        exists tree,
          render (View Undefined filter false) = Normal tree
          /\ expressions tree = [Undefined; Undefined; Undefined; Undefined; Undefined]
          /\ list_calls tree = [])
  /\ (forall user filter,
        returns (render (View user filter false))
        = nullish user || Spec.nested_present user).
Proof.
  split; [exact user_of_total | split].
  - intros filter. eexists. repeat split.
  - intros user filter. unfold render. cbn [loading userData filteredRepo].
    rewrite returns_bind.
    destruct (nullish user) eqn:Hu.
    + destruct user; try discriminate; reflexivity.
    + assert (Hn : is_null user = false) by (destruct user; try discriminate; reflexivity).
      rewrite Hn. pose proof (profile_returns user filter Hu) as Hp.
      destruct (profile user filter); simpl in *; assumption.
Qed.

(** Counterexample to C5 as stated: a payload whose user object has a login and no
    [followers] is stored as it is, and its render throws on
    [userData?.followers.totalCount]. *)
Lemma missing_followers_raises :
  user_of (Obj [("data", Obj [("user", Sample.login_only)])]) = Normal Sample.login_only
  /\ render (View Sample.login_only EmptyString false)
     = Throw (TypeErrorRead Undefined "totalCount")
  /\ ~ Spec.renders_without_raising (Obj [("data", Obj [("user", Sample.login_only)])]).
Proof.
  split; [reflexivity | split; [reflexivity |]].
  intros H. specialize (H EmptyString). simpl in H. discriminate.
Qed.

(** *** The life cycle *)

Lemma settled_keeps_timer : forall o c,
  mounted (fetchDataUser_settled o c) = mounted c
  /\ clock (fetchDataUser_settled o c) = clock c
  /\ timers (fetchDataUser_settled o c) = timers c
  /\ loading (state (fetchDataUser_settled o c)) = loading (state c)
  /\ incl (dropped c) (dropped (fetchDataUser_settled o c)).
Proof.
  intros o c. unfold fetchDataUser_settled.
  destruct o as [data|reason]; [destruct (user_of data) |];
    unfold set_state, console_error; try destruct (mounted c) eqn:Hm;
    cbn; repeat split; auto using incl_refl, incl_appl.
Qed.

Lemma step_clock : forall c e,
  clock (step c e) = clock c + match e with
                               | Elapse ms => ms
                               | _ => 0
                               end.
Proof.
  intros c e. destruct e as [i o|path|text|ms|]; cbn [step].
  - destruct (i <? List.length (inflight c))%nat; [|lia].
    destruct (settled_keeps_timer o (with_inflight (remove_nth i (inflight c)) c))
      as (_ & -> & _). cbn. lia.
  - destruct (mounted c); [|lia].
    destruct (String.eqb _ _); cbn; lia.
  - unfold set_state. destruct (mounted c); cbn; lia.
  - unfold elapse.
    set (due := filter _ (timers c)). generalize due; intros l.
    match goal with |- clock (fold_left _ _ ?c0) = _ =>
      assert (H : forall c1, clock (fold_left (fun c' (_ : nat) => set_state (SetLoading false) c') l c1) = clock c1)
    end.
    { induction l as [|t l IH]; intros c1; cbn [fold_left]; [reflexivity|].
      rewrite IH. unfold set_state. destruct (mounted c1); reflexivity. }
    rewrite H. reflexivity.
  - cbn. lia.
Qed.

Lemma run_clock : forall trace c,
  clock (run c trace) = clock c + elapsed trace.
Proof.
  unfold run. induction trace as [|e trace IH]; intros c; cbn [fold_left elapsed]; [lia|].
  rewrite IH, step_clock. destruct e; lia.
Qed.

Lemma step_mounted : forall c e,
  mounted (step c e) = true -> mounted c = true.
Proof.
  intros c e. destruct e as [i o|path|text|ms|]; cbn [step].
  - destruct (i <? List.length (inflight c))%nat; [|auto].
    destruct (settled_keeps_timer o (with_inflight (remove_nth i (inflight c)) c))
      as (-> & _). auto.
  - destruct (mounted c) eqn:E; intros H; [reflexivity | congruence].
  - destruct (mounted c) eqn:E; intros H; [reflexivity | congruence].
  - unfold elapse.
    set (due := filter _ (timers c)). generalize due; intros l.
    match goal with |- mounted (fold_left _ _ ?c0) = _ -> _ =>
      assert (H : forall c1, mounted (fold_left (fun c' (_ : nat) => set_state (SetLoading false) c') l c1) = mounted c1)
    end.
    { induction l as [|t l IH]; intros c1; cbn [fold_left]; [reflexivity|].
      rewrite IH. unfold set_state. destruct (mounted c1) eqn:E; cbn; auto. }
    rewrite H. auto.
  - cbn. discriminate.
Qed.

Lemma run_mounted : forall trace c,
  mounted (run c trace) = true -> mounted c = true.
Proof.
  unfold run. induction trace as [|e trace IH]; intros c H; cbn [fold_left] in H; [exact H|].
  eapply step_mounted, IH, H.
Qed.

Lemma step_loading_follows_timer : forall c e,
  Spec.loading_follows_timer c -> Spec.loading_follows_timer (step c e).
Proof.
  intros c e Hc Hm. pose proof (step_mounted _ _ Hm) as Hm0.
  specialize (Hc Hm0).
  destruct e as [i o|path|text|ms|]; cbn [step] in *.
  - destruct (i <? List.length (inflight c))%nat; [|exact Hc].
    destruct (settled_keeps_timer o (with_inflight (remove_nth i (inflight c)) c))
      as (_ & -> & -> & -> & _). exact Hc.
  - rewrite Hm0. destruct (String.eqb _ _); exact Hc.
  - rewrite Hm0. unfold set_state. rewrite Hm0. exact Hc.
  - unfold elapse.
    destruct Hc as [(Hlt & Hl & Ht) | (Hge & Hl & Ht)]; rewrite Ht; cbn [filter].
    + destruct (3000 <=? clock c + ms)%nat eqn:Hdue; cbn [negb fold_left].
      * apply Nat.leb_le in Hdue. right. unfold set_state. cbn. rewrite Hm0. cbn. auto.
      * apply Nat.leb_gt in Hdue. left. cbn. auto.
    + right. cbn. repeat split; auto. lia.
  - discriminate.
Qed.

Lemma run_loading_follows_timer : forall trace c,
  Spec.loading_follows_timer c -> Spec.loading_follows_timer (run c trace).
Proof.
  unfold run. induction trace as [|e trace IH]; intros c Hc; cbn [fold_left]; [exact Hc|].
  apply IH, step_loading_follows_timer, Hc.
Qed.

Lemma mount_loading_follows_timer : forall path,
  Spec.loading_follows_timer (mount path).
Proof. intros path _. left. cbn. repeat split; auto. lia. Qed.

Lemma loading_by_elapsed : forall path trace,
  mounted (run (mount path) trace) = true ->
  (elapsed trace < 3000 -> loading (state (run (mount path) trace)) = true)
  /\ (3000 <= elapsed trace -> loading (state (run (mount path) trace)) = false).
Proof.
  intros path trace Hm.
  pose proof (run_loading_follows_timer trace _ (mount_loading_follows_timer path) Hm) as Hinv.
  pose proof (run_clock trace (mount path)) as Hclock.
  change (clock (mount path)) with 0 in Hclock. cbn [Nat.add] in Hclock.
  destruct Hinv as [(Hlt & Hl & _) | (Hge & Hl & _)]; split; intros; (exact Hl || lia).
Qed.

(** C6. At mount the loading flag goes from false to true and one timer of
    3000 ms is set. Whatever happens to the mounted component afterwards,
    fetches settling at any moment and with any outcome, navigation, typing,
    time passing: as long as less than 3000 ms have passed the render is the
    spinner, and from 3000 ms on the flag is false and the render is not the
    spinner. *)
Theorem spinner_for_the_first_3000ms : forall path trace,
  let c := run (mount path) trace in
  mounted c = true ->
  loading (state (first_render path)) = false
  /\ loading (state (mount path)) = true
  /\ timers (mount path) = [3000]
  /\ (elapsed trace < 3000 ->
      loading (state c) = true /\ render (state c) = Spec.wrapped spinner)
  /\ (3000 <= elapsed trace ->
      loading (state c) = false /\ render (state c) <> Spec.wrapped spinner).
Proof.
  intros path trace c Hm.
  pose proof (run_loading_follows_timer trace _ (mount_loading_follows_timer path) Hm) as Hinv.
  pose proof (run_clock trace (mount path)) as Hclock.
  fold c in Hinv, Hclock. cbn [mount clock] in Hclock.
  change (clock (mount path)) with 0 in Hclock. cbn [Nat.add] in Hclock.
  repeat split; try reflexivity.
  - destruct Hinv as [(_ & Hl & _) | (Hge & _)]; [exact Hl | lia].
  - destruct Hinv as [(_ & Hl & _) | (Hge & _)]; [| lia].
    unfold render. rewrite Hl. reflexivity.
  - destruct Hinv as [(Hlt & _) | (_ & Hl & _)]; [lia | exact Hl].
  - destruct Hinv as [(Hlt & _) | (_ & Hl & _)]; [lia |].
    unfold render. rewrite Hl.
    destruct (is_null (userData (state c))); [discriminate|].
    destruct (profile (userData (state c)) (filteredRepo (state c))) as [tree|e] eqn:Hp;
      [| discriminate].
    apply profile_is_fragment in Hp. destruct Hp as (children & ->). discriminate.
Qed.

Lemma spinner_for_the_first_3000ms_witness :
  let c := run (mount "/octocat")
               [Elapse 1000; Settle 0 (Resolved (User.payload (Some Sample.octocat)));
                Elapse 2000] in
  mounted c = true
  /\ loading (state c) = false
  /\ render (state c) <> Spec.wrapped spinner.
Proof.
  cbv zeta. split; [reflexivity |].
  refine (proj2 (proj2 (proj2 (proj2
    (spinner_for_the_first_3000ms "/octocat"
       [Elapse 1000; Settle 0 (Resolved (User.payload (Some Sample.octocat)));
        Elapse 2000] _)))) _).
  - reflexivity.
  - cbn. lia.
Defined.

Lemma fold_set_loading_userData : forall (l : list nat) c,
  userData (state (fold_left (fun c' (_ : nat) => set_state (SetLoading false) c') l c))
  = userData (state c).
Proof.
  induction l as [|t l IH]; intros c; cbn [fold_left]; [reflexivity|].
  rewrite IH. unfold set_state. destruct (mounted c); reflexivity.
Qed.

Lemma step_keeps_absent : forall c e,
  userData (state c) = Null ->
  Spec.settles_absent e = true ->
  userData (state (step c e)) = Null.
Proof.
  intros c e Hc He. destruct e as [i o|path|text|ms|]; cbn [step].
  - destruct (i <? List.length (inflight c))%nat; [|exact Hc].
    destruct o as [data|reason]; cbn [fetchDataUser_settled Spec.settles_absent] in *.
    + destruct (user_of data) as [user|e]; [|discriminate].
      destruct user; try discriminate.
      unfold set_state. cbn. destruct (mounted c); cbn; auto.
    + exact Hc.
  - destruct (mounted c); [|exact Hc].
    destruct (String.eqb _ _); exact Hc.
  - destruct (mounted c) eqn:Hm; [|exact Hc].
    unfold set_state. rewrite Hm. exact Hc.
  - unfold elapse. rewrite fold_set_loading_userData. exact Hc.
  - exact Hc.
Qed.

Lemma run_keeps_absent : forall trace c,
  userData (state c) = Null ->
  forallb Spec.settles_absent trace = true ->
  userData (state (run c trace)) = Null.
Proof.
  unfold run. induction trace as [|e trace IH]; intros c Hc Ht; cbn [fold_left]; [exact Hc|].
  cbn [forallb] in Ht. apply andb_prop in Ht. destruct Ht as (He & Ht).
  apply IH; [apply step_keeps_absent; assumption | exact Ht].
Qed.

(** C1, amended. A fetch that rejects records one diagnostic and
    leaves the view state, the stored profile included, as it was. A fetch
    that resolves with [user: null] stores [null] and records no diagnostic.
    When every fetch of a mount that settles does so in one of these two
    ways, the stored profile is [null] throughout, and once 3000 ms have
    passed the render of the mounted component is the not-found image, which
    shows no profile field and no repository. *)
Theorem failed_fetch_keeps_profile_and_logs :
  (forall c i reason,
      i < List.length (inflight c) ->
      let c' := step c (Settle i (Rejected reason)) in
      state c' = state c
      /\ console c' = console c ++ [ConsoleError "Error fetching user data:" (Rejection reason)])
  /\ (forall c i data,
      i < List.length (inflight c) ->
      user_of data = Normal Null ->
      let c' := step c (Settle i (Resolved data)) in
      (mounted c = true -> userData (state c') = Null)
      /\ console c' = console c)
  /\ (forall path trace,
      forallb Spec.settles_absent trace = true ->
      let c := run (mount path) trace in
      mounted c = true ->
      3000 <= elapsed trace ->
      userData (state c) = Null
      /\ render (state c) = Spec.wrapped not_found)
  /\ expressions (Styled "UserComponentStyles" [] [not_found]) = []
  /\ list_calls (Styled "UserComponentStyles" [] [not_found]) = [].
Proof.
  split; [|split; [|split; [|split; reflexivity]]].
  - intros c i reason Hi c'. subst c'. cbn [step].
    apply Nat.ltb_lt in Hi. rewrite Hi. split; reflexivity.
  - intros c i data Hi Hu c'. subst c'. cbn [step].
    apply Nat.ltb_lt in Hi. rewrite Hi. cbn [fetchDataUser_settled]. rewrite Hu.
    unfold set_state. cbn. split.
    + intros Hm. rewrite Hm. reflexivity.
    + destruct (mounted c); reflexivity.
  - intros path trace Ht c Hm Hlate.
    assert (Hu : userData (state c) = Null)
      by (apply run_keeps_absent; [reflexivity | exact Ht]).
    split; [exact Hu |].
    pose proof (proj2 (loading_by_elapsed path trace Hm) Hlate) as Hl.
    unfold render. fold c in Hl. rewrite Hl, Hu. reflexivity.
Qed.

Lemma failed_fetch_keeps_profile_and_logs_witness :
  (let c := run (mount "/octocat")
                [Settle 0 (Resolved (User.payload (Some Sample.octocat))); Navigate "/ghost"] in
   let c' := step c (Settle 0 (Rejected "offline")) in
   state c' = state c
   /\ console c' = [ConsoleError "Error fetching user data:" (Rejection "offline")])
  /\ (let c' := step (mount "/ghost") (Settle 0 (Resolved (User.payload None))) in
      userData (state c') = Null /\ console c' = [])
  /\ render (state (run (mount "/ghost")
                        [Settle 0 (Rejected "offline"); Elapse 3000]))
     = Spec.wrapped not_found.
Proof.
  destruct failed_fetch_keeps_profile_and_logs as (Hreject & Hnull & Hrender & _).
  split; [|split].
  - exact (Hreject (run (mount "/octocat")
                        [Settle 0 (Resolved (User.payload (Some Sample.octocat)));
                         Navigate "/ghost"])
                   0 "offline" (Nat.lt_0_succ 0)).
  - destruct (Hnull (mount "/ghost") 0 (User.payload None) (Nat.lt_0_succ 0) eq_refl)
      as (Hu & Hc).
    split; [exact (Hu eq_refl) | exact Hc].
  - refine (proj2 (Hrender "/ghost" [Settle 0 (Rejected "offline"); Elapse 3000]
                           eq_refl eq_refl _)).
    cbn. lia.
Defined.

(** Counterexample to C1 as stated, on two counts. A fetch that answers [user: null]
    stores [null] and records no diagnostic. A fetch that rejects after an
    earlier one succeeded (the user name changed in between) stores nothing:
    the earlier profile stays, and the render after the loading phase is that
    profile, not the not-found image. *)
Lemma failed_fetch_does_not_store_or_log :
  (Spec.failed (Resolved (User.payload None)) = true
   /\ console (step (mount "/ghost") (Settle 0 (Resolved (User.payload None)))) = []
   /\ ~ Spec.stores_absent_and_logs (mount "/ghost") 0 (Resolved (User.payload None)))
  /\ (let c := run (mount "/octocat")
                   [Settle 0 (Resolved (User.payload (Some Sample.octocat)));
                    Navigate "/ghost"; Elapse 3000] in
      Spec.failed (Rejected "offline") = true
      /\ inflight c = [query "ghost"]
      /\ userData (state (step c (Settle 0 (Rejected "offline"))))
         = User.to_value Sample.octocat
      /\ ~ Spec.stores_absent_and_logs c 0 (Rejected "offline")).
Proof.
  split.
  - split; [reflexivity | split; [reflexivity |]].
    intros (_ & (d & Hd) & _). cbn in Hd. discriminate.
  - cbv zeta. split; [reflexivity | split; [reflexivity | split; [reflexivity |]]].
    intros (Hu & _). cbn in Hu. discriminate.
Qed.

(** A payload without [data] or [user] stores [undefined], which is not
    [null]: after the loading phase the profile branch is rendered, with
    every field empty, and not the not-found image. *)
Example malformed_payload_stores_undefined :
  let c := run (mount "/ghost") [Settle 0 (Resolved (Obj [])); Elapse 3000] in
  userData (state c) = Undefined
  /\ console c = []
  /\ render (state c) = render (View Undefined EmptyString false)
  /\ render (state c) <> Spec.wrapped not_found.
Proof.
  cbv zeta. repeat split. cbn. discriminate.
Qed.

Lemma step_timer_survives : forall c e,
  Spec.timer_survives c -> Spec.timer_survives (step c e).
Proof.
  intros c e (Hm & Hc). unfold Spec.timer_survives.
  destruct e as [i o|path|text|ms|]; cbn [step].
  - destruct (i <? List.length (inflight c))%nat; [|split; assumption].
    destruct (settled_keeps_timer o (with_inflight (remove_nth i (inflight c)) c))
      as (-> & -> & -> & _ & Hincl).
    split; [exact Hm |].
    destruct Hc as [Hc | (Hge & Hin)]; [left; exact Hc | right].
    split; [exact Hge | apply Hincl, Hin].
  - rewrite Hm. split; assumption.
  - rewrite Hm. split; assumption.
  - unfold elapse.
    destruct Hc as [(Hlt & Ht) | (Hge & Hin)].
    + rewrite Ht. cbn [filter].
      destruct (3000 <=? clock c + ms)%nat eqn:Hdue; cbn [negb fold_left].
      * apply Nat.leb_le in Hdue. unfold set_state. cbn. rewrite Hm. cbn.
        split; [reflexivity | right]. split; [exact Hdue |].
        apply in_or_app. right. left. reflexivity.
      * apply Nat.leb_gt in Hdue. cbn. split; [exact Hm | left]. auto.
    + set (due := filter _ (timers c)). set (later := filter _ (timers c)).
      clearbody due later.
      assert (H : forall l c1, mounted c1 = false -> 3000 <= clock c1 ->
                  In (SetLoading false) (dropped c1) ->
                  Spec.timer_survives
                    (fold_left (fun c' (_ : nat) => set_state (SetLoading false) c') l c1)).
      { induction l as [|t l IH]; intros c1 H1 H2 H3; cbn [fold_left].
        - split; [exact H1 | right; auto].
        - apply IH; unfold set_state; rewrite H1; cbn; auto.
          apply in_or_app. left. exact H3. }
      apply H; cbn; auto. lia.
  - cbn. split; [reflexivity | exact Hc].
Qed.

Lemma run_timer_survives : forall trace c,
  Spec.timer_survives c -> Spec.timer_survives (run c trace).
Proof.
  unfold run. induction trace as [|e trace IH]; intros c Hc; cbn [fold_left]; [exact Hc|].
  apply IH, step_timer_survives, Hc.
Qed.

(** C7, amended. Tearing the component down cancels nothing: the
    pending timers and the requests in flight are the same after as before.
    For a mount torn down before 3000 ms have passed, the timer is still
    pending after the teardown, and whatever follows, once 3000 ms have passed
    since the mount the timer callback has run and has called
    [setLoading(false)] on the torn-down component. *)
Theorem timer_outlives_teardown :
  (forall c,
      timers (step c Unmount) = timers c /\ inflight (step c Unmount) = inflight c)
  /\ (forall path before after,
      mounted (run (mount path) before) = true ->
      elapsed before < 3000 ->
      let torn := step (run (mount path) before) Unmount in
      mounted torn = false
      /\ timers torn = [3000]
      /\ (3000 <= elapsed before + elapsed after ->
          In (SetLoading false) (dropped (run torn after)))).
Proof.
  split; [intros c; split; reflexivity |].
  intros path before after Hm Hearly torn.
  pose proof (run_loading_follows_timer before _ (mount_loading_follows_timer path) Hm) as Hinv.
  pose proof (run_clock before (mount path)) as Hclock.
  change (clock (mount path)) with 0 in Hclock. cbn [Nat.add] in Hclock.
  assert (Ht : timers (run (mount path) before) = [3000]).
  { destruct Hinv as [(_ & _ & Ht) | (Hge & _)]; [exact Ht | lia]. }
  split; [reflexivity | split; [exact Ht |]].
  intros Hlate.
  assert (Htorn : Spec.timer_survives torn).
  { split; [reflexivity | left]. subst torn. cbn. rewrite Hclock. auto. }
  destruct (run_timer_survives after torn Htorn) as (_ & [(Hlt & _) | (_ & Hin)]);
    [| exact Hin].
  rewrite run_clock in Hlt. subst torn. cbn in Hlt. lia.
Qed.

Lemma timer_outlives_teardown_witness :
  let torn := step (run (mount "/octocat") [Elapse 1000]) Unmount in
  timers torn = [3000]
  /\ In (SetLoading false) (dropped (run torn [Elapse 2000])).
Proof.
  destruct (proj2 timer_outlives_teardown "/octocat" [Elapse 1000] [Elapse 2000] eq_refl)
    as (_ & Ht & Hin).
  - cbn. lia.
  - split; [exact Ht | apply Hin; cbn; lia].
Defined.

(** Counterexample to C7 as stated: after a teardown right after the mount the timer is
    still pending, and 3000 ms later its callback calls [setLoading(false)]
    on the torn-down component. *)
Lemma timer_fires_after_teardown :
  timers (step (mount "/octocat") Unmount) = [3000]
  /\ dropped (run (mount "/octocat") [Unmount; Elapse 3000]) = [SetLoading false]
  /\ ~ Spec.cancelled_on_teardown (mount "/octocat").
Proof.
  split; [reflexivity | split; [reflexivity |]].
  intros (H & _). cbn in H. discriminate.
Qed.

(** *** Reading the query *)

Lemma scan_app : forall a b m,
  GraphQL.scan m (a ++ b)%string
  = let (out, m') := GraphQL.scan m a in
    let (more, m'') := GraphQL.scan m' b in
    (out ++ more, m'').
Proof.
  induction a as [|c a IH]; intros b m; cbn [String.append GraphQL.scan].
  - destruct (GraphQL.scan m b); reflexivity.
  - destruct (GraphQL.advance m c) as (out, m1). rewrite IH.
    destruct (GraphQL.scan m1 a) as (out1, m2).
    destruct (GraphQL.scan m2 b) as (out2, m3).
    rewrite app_assoc. reflexivity.
Qed.

(** A plain text read inside a quoted string is taken as it is. *)
Lemma scan_plain : forall u acc,
  GraphQL.plain u = true ->
  GraphQL.scan (GraphQL.InString acc) u = ([], GraphQL.InString (acc ++ u)%string).
Proof.
  induction u as [|c u IH]; intros acc Hp; cbn [GraphQL.scan].
  - assert (H : (acc ++ EmptyString)%string = acc)
      by (clear; induction acc as [|x acc IH]; simpl; [reflexivity | now rewrite IH]).
    rewrite H. reflexivity.
  - cbn [GraphQL.plain] in Hp.
    apply andb_prop in Hp. destruct Hp as (Hp & Hrest).
    apply andb_prop in Hp. destruct Hp as (Hp & Hline).
    apply andb_prop in Hp. destruct Hp as (Hquote & Hback).
    apply negb_true_iff in Hquote, Hback, Hline.
    cbn [GraphQL.advance]. rewrite Hquote, Hback, Hline.
    rewrite (IH _ Hrest). unfold GraphQL.snoc. rewrite append_assoc. reflexivity.
Qed.

Lemma query_splice : forall u,
  query u
  = (substring 0 29 (query EmptyString) ++ u
     ++ substring 29 (String.length (query EmptyString) - 29) (query EmptyString))%string.
Proof. intros u. reflexivity. Qed.

(** C3, amended. Mounting issues one request, and each run of
    the fetch effect adds one, whose text is the query for the current user
    name. For every user name that holds no quote, no backslash and no line
    end, that text is a query asking exactly for the user with that login:
    login, name, avatarUrl, url, followers.totalCount, following.totalCount,
    and the first 50 repositories with id, name and url of each. *)
Theorem query_requests_the_profile :
  (forall path, inflight (mount path) = [query (username path)])
  /\ (forall c, inflight (fetch_effect c) = inflight c ++ [query (username (pathname c))])
  /\ (forall u, GraphQL.plain u = true -> Spec.requests_profile u).
Proof.
  split; [reflexivity | split; [reflexivity |]].
  intros u Hu. unfold Spec.requests_profile, GraphQL.requested, GraphQL.tokens.
  rewrite query_splice, scan_app.
  destruct (GraphQL.scan GraphQL.Between (substring 0 29 (query EmptyString))) as (t1, m1) eqn:E1.
  vm_compute in E1. injection E1 as <- <-.
  rewrite scan_app, (scan_plain u EmptyString Hu). cbn [String.append].
  destruct (GraphQL.scan (GraphQL.InString u) _) as (t2, m2) eqn:E2.
  vm_compute in E2. injection E2 as <- <-.
  vm_compute. reflexivity.
Qed.

Lemma query_requests_the_profile_witness :
  GraphQL.requested (query "octocat") = Some (profile_request "octocat").
Proof.
  exact (proj2 (proj2 query_requests_the_profile) "octocat" eq_refl).
Defined.

(** Counterexample to C3 as stated: a user name with a quote in it ends the login
    string early, and the query that is sent asks for something else; here
    for the [id] of user [a], and the profile fields under a second, aliased
    [user] field. *)
Lemma injected_username_changes_the_request :
  GraphQL.requested (query Sample.injected)
  = Some [GraphQL.Field None "user" [("login", GraphQL.AString "a")] [GraphQL.leaf "id"];
          match profile_request "b" with
          | [GraphQL.Field _ name arguments fields] =>
              GraphQL.Field (Some "x") name arguments fields
          | _ => GraphQL.leaf EmptyString
          end]
  /\ ~ Spec.requests_profile Sample.injected.
Proof.
  split; [vm_compute; reflexivity |].
  unfold Spec.requests_profile. vm_compute. discriminate.
Qed.

(** The same for a lone quote: the text is no query at all. *)
Example quote_username_is_malformed :
  GraphQL.requested (query dquote) = None.
Proof. vm_compute. reflexivity. Qed.

(** ** More of the component *)

(** *** Frames *)

Lemma set_state_frame : forall u c,
  mounted (set_state u c) = mounted c
  /\ clock (set_state u c) = clock c
  /\ timers (set_state u c) = timers c
  /\ inflight (set_state u c) = inflight c
  /\ console (set_state u c) = console c
  /\ pathname (set_state u c) = pathname c.
Proof.
  intros u c. unfold set_state. destruct (mounted c) eqn:Hm; cbn; auto 10.
Qed.

Lemma timer_callbacks_frame : forall (l : list nat) c,
  let c' := fold_left (fun c' (_ : nat) => set_state (SetLoading false) c') l c in
  mounted c' = mounted c
  /\ clock c' = clock c
  /\ timers c' = timers c
  /\ inflight c' = inflight c
  /\ console c' = console c
  /\ pathname c' = pathname c
  /\ userData (state c') = userData (state c)
  /\ filteredRepo (state c') = filteredRepo (state c)
  /\ (mounted c = true -> dropped c' = dropped c)
  /\ (mounted c = false -> state c' = state c).
Proof.
  induction l as [|t l IH]; intros c; cbn [fold_left].
  - cbv zeta. auto 12.
  - specialize (IH (set_state (SetLoading false) c)). cbv zeta in *.
    destruct IH as (H1 & H2 & H3 & H4 & H5 & H6 & H7 & H8 & H9 & H10).
    destruct (set_state_frame (SetLoading false) c) as (F1 & F2 & F3 & F4 & F5 & F6).
    rewrite H1, H2, H3, H4, H5, H6, H7, H8, F1, F2, F3, F4, F5, F6.
    repeat split; try reflexivity.
    + unfold set_state. destruct (mounted c); reflexivity.
    + unfold set_state. destruct (mounted c); reflexivity.
    + intros Hm. rewrite H9 by (rewrite F1; exact Hm).
      unfold set_state. rewrite Hm. reflexivity.
    + intros Hm. rewrite H10 by (rewrite F1; exact Hm).
      unfold set_state. rewrite Hm. reflexivity.
Qed.

Lemma user_of_own : forall data,
  user_of data = Normal (Spec.own "user" (Spec.own "data" data)).
Proof.
  intros data. unfold user_of, optional.
  destruct (nullish data) eqn:Hd.
  - rewrite (own_of_nullish "data" data Hd). reflexivity.
  - rewrite (member_present _ _ Hd). cbn [bind].
    destruct (nullish (Spec.own "data" data)) eqn:Hi.
    + rewrite (own_of_nullish "user" _ Hi). reflexivity.
    + apply member_present, Hi.
Qed.

(** *** The query as an effect dependency *)

Lemma append_cancel_l : forall a x y : string,
  (a ++ x)%string = (a ++ y)%string -> x = y.
Proof.
  induction a as [|c a IH]; intros x y H; cbn in H; [exact H |].
  injection H as H. apply IH, H.
Qed.

Lemma length_append : forall a b : string,
  String.length (a ++ b) = String.length a + String.length b.
Proof.
  induction a as [|c a IH]; intros b; cbn; [reflexivity | now rewrite IH].
Qed.

Lemma append_cancel_r : forall x y t : string,
  (x ++ t)%string = (y ++ t)%string -> x = y.
Proof.
  induction x as [|c x IH]; intros y t H.
  - destruct y as [|d y]; [reflexivity |].
    apply (f_equal String.length) in H. cbn in H. rewrite length_append in H. lia.
  - destruct y as [|d y].
    + apply (f_equal String.length) in H. cbn in H. rewrite length_append in H. lia.
    + cbn in H. injection H as Hc H. subst d. f_equal. apply (IH _ _ H).
Qed.

Lemma query_injective : forall u v, query u = query v -> u = v.
Proof.
  intros u v H. rewrite (query_splice u), (query_splice v) in H.
  apply append_cancel_l in H. apply append_cancel_r in H. exact H.
Qed.

Lemma query_eqb : forall u v, String.eqb (query u) (query v) = String.eqb u v.
Proof.
  intros u v. destruct (String.eqb_spec u v) as [->|Hne].
  - apply String.eqb_refl.
  - apply String.eqb_neq. intros H. apply Hne, query_injective, H.
Qed.

(** X1. Two user names have the same query text only when they are the same
    user name, so the fetch effect, which depends on the query text, runs
    again exactly when the user name changes: navigating to a path with the
    same user name issues nothing, navigating to another user name issues one
    request, for that user name, behind those already in flight. Navigation
    touches neither the view state nor the timer, and on a torn-down
    component it does nothing. *)
Theorem refetch_exactly_when_username_changes :
  (forall u v, query u = query v <-> u = v)
  /\ (forall c path,
      mounted c = true ->
      let c' := step c (Navigate path) in
      inflight c'
      = (if String.eqb (username (pathname c)) (username path)
         then inflight c
         else inflight c ++ [query (username path)])
      /\ pathname c' = path
      /\ state c' = state c
      /\ timers c' = timers c)
  /\ (forall c path, mounted c = false -> step c (Navigate path) = c).
Proof.
  split; [|split].
  - intros u v. split; [apply query_injective | intros ->; reflexivity].
  - intros c path Hm c'. subst c'. cbn [step]. rewrite Hm, query_eqb.
    destruct (String.eqb (username (pathname c)) (username path)); cbn; auto.
  - intros c path Hm. cbn [step]. rewrite Hm. reflexivity.
Qed.

Lemma refetch_exactly_when_username_changes_witness :
  inflight (step (mount "/octocat") (Navigate "/ghost"))
  = [query "octocat"; query "ghost"]
  /\ inflight (step (mount "/octocat") (Navigate "/octocat")) = [query "octocat"].
Proof.
  destruct refetch_exactly_when_username_changes as (_ & Hnav & _).
  split.
  - exact (proj1 (Hnav (mount "/octocat") "/ghost" eq_refl)).
  - exact (proj1 (Hnav (mount "/octocat") "/octocat" eq_refl)).
Defined.

(** *** Responses out of order *)

(** X2. A response is applied whichever request it answers: settling any
    request in flight stores [data?.data?.user] of its payload and takes that
    request out of flight, without looking at the current path. So when the
    user name changes while a request is in flight and the first request is
    answered last, the profile on screen is that of the first user name while
    the path is the second. *)
Theorem last_response_to_settle_wins :
  (forall c i data,
      mounted c = true ->
      i < List.length (inflight c) ->
      let c' := step c (Settle i (Resolved data)) in
      userData (state c') = Spec.own "user" (Spec.own "data" data)
      /\ inflight c' = remove_nth i (inflight c)
      /\ pathname c' = pathname c)
  /\ (forall path1 path2 data1 data2,
      username path1 <> username path2 ->
      let c := run (mount path1)
                   [Navigate path2; Settle 1 (Resolved data2); Settle 0 (Resolved data1)] in
      pathname c = path2
      /\ userData (state c) = Spec.own "user" (Spec.own "data" data1)
      /\ inflight c = []).
Proof.
  split.
  - intros c i data Hm Hi c'. subst c'. cbn [step].
    apply Nat.ltb_lt in Hi. rewrite Hi. cbn [fetchDataUser_settled].
    rewrite user_of_own. unfold set_state. cbn. rewrite Hm. cbn. auto.
  - intros path1 path2 data1 data2 Hne c. subst c.
    unfold run. cbn -[query username String.eqb user_of]. rewrite query_eqb.
    destruct (String.eqb_spec (username path1) (username path2)) as [He|_]; [contradiction |].
    cbn -[query username user_of]. rewrite !user_of_own. cbn -[query username]. auto.
Qed.

Lemma last_response_to_settle_wins_witness :
  let c := run (mount "/octocat")
               [Navigate "/ghost"; Settle 1 (Resolved (User.payload None));
                Settle 0 (Resolved (User.payload (Some Sample.octocat)))] in
  pathname c = "/ghost" /\ userData (state c) = User.to_value Sample.octocat.
Proof.
  destruct (proj2 last_response_to_settle_wins "/octocat" "/ghost"
              (User.payload (Some Sample.octocat)) (User.payload None))
    as (Hp & Hu & _).
  - cbn. discriminate.
  - split; [exact Hp | exact Hu].
Defined.

(** *** Diagnostics *)

Lemma step_console : forall c e,
  console (step c e)
  = console c ++ match e with
                 | Settle i (Rejected reason) =>
                     if (i <? List.length (inflight c))%nat
                     then [ConsoleError "Error fetching user data:" (Rejection reason)]
                     else []
                 | _ => []
                 end.
Proof.
  intros c e. destruct e as [i o|path|text|ms|]; cbn [step].
  - destruct (i <? List.length (inflight c))%nat.
    + destruct o as [data|reason]; cbn [fetchDataUser_settled].
      * rewrite user_of_own.
        destruct (set_state_frame (SetUserData (Spec.own "user" (Spec.own "data" data)))
                    (with_inflight (remove_nth i (inflight c)) c))
          as (_ & _ & _ & _ & -> & _).
        cbn. now rewrite app_nil_r.
      * reflexivity.
    + destruct o; now rewrite app_nil_r.
  - rewrite app_nil_r. destruct (mounted c); [| reflexivity].
    destruct (String.eqb _ _); reflexivity.
  - rewrite app_nil_r. destruct (mounted c); [| reflexivity].
    destruct (set_state_frame (SetFilteredRepo text) c) as (_ & _ & _ & _ & -> & _).
    reflexivity.
  - rewrite app_nil_r. unfold elapse.
    match goal with |- console (fold_left _ ?l ?c0) = _ =>
      destruct (timer_callbacks_frame l c0) as (_ & _ & _ & _ & -> & _)
    end.
    reflexivity.
  - now rewrite app_nil_r.
Qed.

(** X3. The console receives a diagnostic only when a request in flight
    rejects, one for each, labelled ["Error fetching user data:"] and carrying
    the rejection reason. A fetch that resolves never logs, whatever its
    payload, nor does any other event; so over any run the diagnostics are
    all rejections, at most as many as the fetches that rejected, and a run
    without a rejected fetch logs nothing. *)
Theorem diagnostics_are_rejections :
  (forall c e,
      console (step c e)
      = console c ++ match e with
                     | Settle i (Rejected reason) =>
                         if (i <? List.length (inflight c))%nat
                         then [ConsoleError "Error fetching user data:" (Rejection reason)]
                         else []
                     | _ => []
                     end)
  /\ (forall trace c,
      exists reasons,
        console (run c trace)
        = console c ++ map (fun reason => ConsoleError "Error fetching user data:"
                                                       (Rejection reason)) reasons
        /\ List.length reasons <= List.length (Trace.rejections trace)).
Proof.
  split; [exact step_console |].
  unfold run. induction trace as [|e trace IH]; intros c; cbn [fold_left].
  - exists []. cbn. rewrite app_nil_r. auto.
  - destruct (IH (step c e)) as (reasons & Hc & Hlen).
    rewrite Hc, step_console.
    destruct e as [i [data|reason]|path|text|ms|]; cbn [Trace.rejections];
      try (exists reasons; rewrite app_nil_r; split; [reflexivity | exact Hlen]).
    destruct (i <? List.length (inflight c))%nat.
    + exists (reason :: reasons). rewrite <- app_assoc. cbn. split; [reflexivity | lia].
    + exists reasons. rewrite app_nil_r. cbn. split; [reflexivity | lia].
Qed.

(** *** Mounted and torn down *)




Lemma step_torn_down : forall c e,
  mounted c = false ->
  mounted (step c e) = false
  /\ state (step c e) = state c
  /\ pathname (step c e) = pathname c
  /\ List.length (inflight (step c e)) <= List.length (inflight c).
Proof.
  intros c e Hm. destruct e as [i o|path|text|ms|]; cbn [step].
  - destruct (i <? List.length (inflight c))%nat eqn:Hi; [| auto].
    assert (Hlen : List.length (remove_nth i (inflight c)) <= List.length (inflight c)).
    { clear. generalize (inflight c) as l. induction i as [|i IH]; intros [|x l]; cbn; auto.
      specialize (IH l). lia. }
    destruct o as [data|reason]; cbn [fetchDataUser_settled].
    + rewrite user_of_own. unfold set_state. cbn. rewrite Hm. cbn. auto.
    + cbn. auto.
  - rewrite Hm. auto.
  - rewrite Hm. auto.
  - unfold elapse.
    match goal with |- mounted (fold_left _ ?l ?c0) = _ /\ _ =>
      destruct (timer_callbacks_frame l c0)
        as (-> & _ & _ & -> & _ & -> & _ & _ & _ & H)
    end.
    rewrite H by exact Hm. cbn. auto.
  - cbn. auto.
Qed.

(** X5. Teardown is final and freezes the view, yet stops no fetch. Once
    the component is torn down, no event mounts it again or changes its view
    state or path, and no new request is issued. A request still in flight
    settles all the same: when it resolves, [setUserData] is called on the
    torn-down component with [data?.data?.user]; when it rejects, the
    diagnostic is logged. *)
Theorem teardown_freezes_the_view_not_the_fetch :
  (forall trace c,
      mounted c = false ->
      mounted (run c trace) = false
      /\ state (run c trace) = state c
      /\ pathname (run c trace) = pathname c
      /\ List.length (inflight (run c trace)) <= List.length (inflight c))
  /\ (forall c i data,
      mounted c = false ->
      i < List.length (inflight c) ->
      dropped (step c (Settle i (Resolved data)))
      = dropped c ++ [SetUserData (Spec.own "user" (Spec.own "data" data))])
  /\ (forall c i reason,
      mounted c = false ->
      i < List.length (inflight c) ->
      console (step c (Settle i (Rejected reason)))
      = console c ++ [ConsoleError "Error fetching user data:" (Rejection reason)]).
Proof.
  split; [| split].
  - unfold run. induction trace as [|e trace IH]; intros c Hm; cbn [fold_left]; [auto |].
    destruct (step_torn_down c e Hm) as (H1 & H2 & H3 & H4).
    destruct (IH _ H1) as (I1 & I2 & I3 & I4).
    rewrite I2, I3, H2, H3. repeat split; auto. lia.
  - intros c i data Hm Hi. cbn [step]. apply Nat.ltb_lt in Hi. rewrite Hi.
    cbn [fetchDataUser_settled]. rewrite user_of_own. unfold set_state. cbn.
    rewrite Hm. reflexivity.
  - intros c i reason Hm Hi. rewrite step_console. apply Nat.ltb_lt in Hi.
    rewrite Hi. reflexivity.
Qed.

Lemma teardown_freezes_the_view_not_the_fetch_witness :
  let c := run (mount "/octocat") [Unmount] in
  state (run c [Settle 0 (Resolved (User.payload (Some Sample.octocat))); Elapse 3000])
  = state c
  /\ dropped (step c (Settle 0 (Resolved (User.payload (Some Sample.octocat)))))
     = [SetUserData (User.to_value Sample.octocat)]
  /\ console (step c (Settle 0 (Rejected "offline")))
     = [ConsoleError "Error fetching user data:" (Rejection "offline")].
Proof.
  destruct teardown_freezes_the_view_not_the_fetch as (Hfrozen & Hresolve & Hreject).
  split; [| split].
  - exact (proj1 (proj2 (Hfrozen
             [Settle 0 (Resolved (User.payload (Some Sample.octocat))); Elapse 3000]
             (run (mount "/octocat") [Unmount]) eq_refl))).
  - exact (Hresolve (run (mount "/octocat") [Unmount]) 0
             (User.payload (Some Sample.octocat)) eq_refl (Nat.lt_0_succ 0)).
  - exact (Hreject (run (mount "/octocat") [Unmount]) 0 "offline" eq_refl (Nat.lt_0_succ 0)).
Defined.

(** *** One timer *)

Lemma step_one_timer : forall c e,
  timers c = (if (clock c <? 3000)%nat then [3000] else []) ->
  timers (step c e) = (if (clock (step c e) <? 3000)%nat then [3000] else []).
Proof.
  intros c e Hc. rewrite step_clock.
  destruct e as [i o|path|text|ms|]; cbn [step]; rewrite ?Nat.add_0_r.
  - destruct (i <? List.length (inflight c))%nat; [| exact Hc].
    destruct (settled_keeps_timer o (with_inflight (remove_nth i (inflight c)) c))
      as (_ & _ & -> & _). exact Hc.
  - destruct (mounted c); [| exact Hc]. destruct (String.eqb _ _); exact Hc.
  - destruct (mounted c); [| exact Hc].
    destruct (set_state_frame (SetFilteredRepo text) c) as (_ & _ & -> & _). exact Hc.
  - unfold elapse.
    match goal with |- timers (fold_left _ ?l ?c0) = _ =>
      destruct (timer_callbacks_frame l c0) as (_ & _ & -> & _)
    end.
    cbn [timers]. rewrite Hc.
    destruct (clock c <? 3000)%nat eqn:Hlt; cbn [filter].
    + destruct (3000 <=? clock c + ms)%nat eqn:Hdue; cbn [negb].
      * apply Nat.leb_le in Hdue. apply Nat.ltb_lt in Hlt.
        destruct (clock c + ms <? 3000)%nat eqn:H; [apply Nat.ltb_lt in H; lia | reflexivity].
      * apply Nat.leb_gt in Hdue. apply Nat.ltb_lt in Hdue. rewrite Hdue. reflexivity.
    + apply Nat.ltb_ge in Hlt.
      destruct (clock c + ms <? 3000)%nat eqn:H; [apply Nat.ltb_lt in H; lia | reflexivity].
  - exact Hc.
Qed.

(** X6. A mount has one timer and never a second: in every run, with or
    without navigation, fetches, input or teardown, the pending timers are
    the one set at mount as long as less than 3000 ms have passed, and none
    from then on. A change of user name does not start a new loading
    phase. *)
Theorem one_timer_per_mount : forall path trace,
  timers (run (mount path) trace)
  = if (elapsed trace <? 3000)%nat then [3000] else [].
Proof.
  intros path trace.
  assert (H : forall trace c,
             timers c = (if (clock c <? 3000)%nat then [3000] else []) ->
             timers (run c trace)
             = (if (clock (run c trace) <? 3000)%nat then [3000] else [])).
  { unfold run. clear. induction trace as [|e trace IH]; intros c Hc; cbn [fold_left].
    - exact Hc.
    - apply IH, step_one_timer, Hc. }
  rewrite (H trace (mount path) eq_refl), run_clock. reflexivity.
Qed.

(** *** A fetched profile on screen *)

Lemma collect_section : forall {A} (here : node -> list A) filter (rs : list Repository.t) info,
  (forall key f l, here (UserRepositories key f l) = []) ->
  collect here (Styled "UserComponentStyles" []
    [Fragment
       [info;
        Host "div" [className "user__info__repositories"]
          [SearchBar filter;
           Host "div" [className "user__info__repositories__map"]
             [Many (map (fun r => UserRepositories (Str (Repository.id r)) filter
                                                  [Repository.to_value r]) rs)]]]])
  = here (Styled "UserComponentStyles" []
      [Fragment
         [info;
          Host "div" [className "user__info__repositories"]
            [SearchBar filter;
             Host "div" [className "user__info__repositories__map"]
               [Many (map (fun r => UserRepositories (Str (Repository.id r)) filter
                                                    [Repository.to_value r]) rs)]]]])
    ++ here (Fragment
         [info;
          Host "div" [className "user__info__repositories"]
            [SearchBar filter;
             Host "div" [className "user__info__repositories__map"]
               [Many (map (fun r => UserRepositories (Str (Repository.id r)) filter
                                                    [Repository.to_value r]) rs)]]])
    ++ collect here info
    ++ here (Host "div" [className "user__info__repositories"]
         [SearchBar filter;
          Host "div" [className "user__info__repositories__map"]
            [Many (map (fun r => UserRepositories (Str (Repository.id r)) filter
                                                 [Repository.to_value r]) rs)]])
    ++ here (SearchBar filter)
    ++ here (Host "div" [className "user__info__repositories__map"]
         [Many (map (fun r => UserRepositories (Str (Repository.id r)) filter
                                              [Repository.to_value r]) rs)])
    ++ here (Many (map (fun r => UserRepositories (Str (Repository.id r)) filter
                                                 [Repository.to_value r]) rs)).
Proof.
  intros A here filter rs info Hitem. cbn [collect].
  rewrite ?app_nil_r, <- ?app_assoc.
  do 6 f_equal.
  match goal with |- ?h ++ _ = _ => rewrite <- (app_nil_r h) at 2 end.
  f_equal.
  induction rs as [|r rs IH]; cbn [map]; [reflexivity |].
  rewrite IH. cbn [collect]. rewrite Hitem. reflexivity.
Qed.

(** X7. A fetch that resolves with a user is rendered field for field. The
    payload [{ data: { user } }] is read back by [data?.data?.user] as that
    user (and as [null] when there is none); on a mounted component whose
    loading phase is over, the render after the response shows the avatar,
    login, name, follower and following counts and profile link of exactly
    that user, one search bar holding the current filter text, and one list
    element per repository of the user. *)
Theorem fetched_user_is_rendered_field_for_field :
  (forall u, user_of (User.payload (Some u)) = Normal (User.to_value u))
  /\ user_of (User.payload None) = Normal Null
  /\ (forall c i (u : User.t),
      mounted c = true ->
      i < List.length (inflight c) ->
      loading (state c) = false ->
      let c' := step c (Settle i (Resolved (User.payload (Some u)))) in
      exists tree,
        render (state c') = Normal tree
        /\ by_tag "img" tree
           = [([("src", PVal (Str (User.avatarUrl u))); ("alt", PStr "User Logo");
                className "user__info__pic"], [])]
        /\ expressions tree
           = [Str (User.login u); Str (User.name u);
              Num (User.followers u); Num (User.following u)]
        /\ by_tag "a" tree
           = [([("href", PVal (Str (User.url u))); ("target", PStr "_blank");
                className "user__info__global__github"],
               [Host "span" [] [Text "Github Profile"]; Text " "; FiGithub])]
        /\ search_bars tree = [filteredRepo (state c)]
        /\ list_calls tree
           = map (fun r => (Str (Repository.id r), filteredRepo (state c),
                            [Repository.to_value r]))
                 (User.repositories u)).
Proof.
  split; [reflexivity | split; [reflexivity |]].
  intros c i u Hm Hi Hl c'.
  assert (Hs : state c' = View (User.to_value u) (filteredRepo (state c)) false).
  { subst c'. cbn [step]. apply Nat.ltb_lt in Hi. rewrite Hi.
    cbn [fetchDataUser_settled]. rewrite user_of_own. unfold set_state. cbn -[User.to_value].
    rewrite Hm. cbn -[User.to_value]. rewrite Hl. reflexivity. }
  rewrite Hs.
  destruct (render_user u (filteredRepo (state c)))
    as (info & Hr & Himg & Hexpr & Ha & Hcalls & Hbars).
  eexists. split; [exact Hr |].
  unfold by_tag, expressions, search_bars, list_calls in *.
  repeat split.
  - rewrite collect_section by reflexivity. cbn. rewrite Himg. reflexivity.
  - rewrite collect_section by reflexivity. cbn. rewrite Hexpr. reflexivity.
  - rewrite collect_section by reflexivity. cbn. rewrite Ha. reflexivity.
  - rewrite collect_section by reflexivity. cbn. rewrite Hbars. reflexivity.
  - apply (list_calls_section (filteredRepo (state c)) (User.repositories u) info Hcalls).
Qed.

Lemma fetched_user_is_rendered_field_for_field_witness :
  exists tree,
    render (state (step (run (mount "/octocat") [Elapse 3000])
                        (Settle 0 (Resolved (User.payload (Some Sample.octocat))))))
    = Normal tree
    /\ expressions tree = [Str "octocat"; Str "The Octocat"; Num 100; Num 9].
Proof.
  destruct (proj2 (proj2 fetched_user_is_rendered_field_for_field)
              (run (mount "/octocat") [Elapse 3000]) 0 Sample.octocat
              eq_refl (Nat.lt_0_succ 0) eq_refl)
    as (tree & Hr & _ & Hexpr & _).
  exists tree. split; [exact Hr | exact Hexpr].
Defined.

(** *** The filter text *)

Lemma step_filter : forall c e,
  mounted (step c e) = true ->
  filteredRepo (state (step c e))
  = match e with
    | Input text => text
    | _ => filteredRepo (state c)
    end.
Proof.
  intros c e Hm. pose proof (step_mounted _ _ Hm) as Hm0.
  destruct e as [i o|path|text|ms|]; cbn [step] in *.
  - destruct (i <? List.length (inflight c))%nat; [| reflexivity].
    destruct o as [data|reason]; cbn [fetchDataUser_settled]; [| reflexivity].
    rewrite user_of_own. unfold set_state. cbn. destruct (mounted c); reflexivity.
  - rewrite Hm0. destruct (String.eqb _ _); reflexivity.
  - rewrite Hm0. unfold set_state. rewrite Hm0. reflexivity.
  - unfold elapse.
    match goal with |- filteredRepo (state (fold_left _ ?l ?c0)) = _ =>
      destruct (timer_callbacks_frame l c0) as (_ & _ & _ & _ & _ & _ & _ & -> & _)
    end.
    reflexivity.
  - discriminate.
Qed.

(** X8. The filter text belongs to the search input alone: in every run
    that leaves the component mounted, the filter text of the view is the
    text of the last input, and the empty text before any input. No fetch
    that settles, no navigation to another user name and no timer resets or
    changes it. *)
Theorem filter_is_the_last_input : forall path trace,
  mounted (run (mount path) trace) = true ->
  filteredRepo (state (run (mount path) trace)) = Trace.last_input trace EmptyString.
Proof.
  intros path trace.
  assert (H : forall trace c,
             mounted (run c trace) = true ->
             filteredRepo (state (run c trace))
             = Trace.last_input trace (filteredRepo (state c))).
  { unfold run. clear. induction trace as [|e trace IH]; intros c Hm; cbn [fold_left] in *.
    - reflexivity.
    - rewrite (IH _ Hm), (step_filter c e (run_mounted trace _ Hm)).
      destruct e; reflexivity. }
  intros Hm. rewrite (H _ _ Hm). reflexivity.
Qed.

Lemma filter_is_the_last_input_witness :
  filteredRepo (state (run (mount "/octocat")
                           [Input "Hel"; Navigate "/ghost"; Input "Hello";
                            Settle 1 (Resolved (User.payload None)); Elapse 3000]))
  = "Hello".
Proof.
  exact (filter_is_the_last_input "/octocat"
           [Input "Hel"; Navigate "/ghost"; Input "Hello";
            Settle 1 (Resolved (User.payload None)); Elapse 3000] eq_refl).
Defined.

(** *** Well-typed responses *)

Lemma step_profile_typed : forall c e,
  Trace.well_typed e -> Trace.profile_typed c -> Trace.profile_typed (step c e).
Proof.
  intros c e He Hc. unfold Trace.profile_typed in *.
  destruct e as [i o|path|text|ms|]; cbn [step].
  - destruct (i <? List.length (inflight c))%nat; [| exact Hc].
    destruct o as [data|reason]; cbn [fetchDataUser_settled]; [| exact Hc].
    cbn in He. destruct He as (u & ->). rewrite user_of_own.
    unfold set_state. cbn -[User.to_value]. destruct (mounted c); [| exact Hc].
    cbn -[User.to_value]. destruct u as [u|]; [right; exists u |left]; reflexivity.
  - destruct (mounted c); [| exact Hc]. destruct (String.eqb _ _); exact Hc.
  - destruct (mounted c) eqn:Hm; [| exact Hc]. unfold set_state. rewrite Hm. exact Hc.
  - unfold elapse.
    match goal with |- userData (state (fold_left _ ?l ?c0)) = _ \/ _ =>
      destruct (timer_callbacks_frame l c0) as (_ & _ & _ & _ & _ & _ & -> & _)
    end.
    exact Hc.
  - exact Hc.
Qed.

(** X9. With responses of the declared shape the render never throws. In
    every run in which each fetch that resolves does so with
    [{ data: { user: User | null } }], whatever else happens and in whatever
    order, the stored profile is [null] or a [User] at every moment, and the
    render of the view state returns. *)
Theorem well_typed_responses_never_throw : forall path trace,
  Forall Trace.well_typed trace ->
  Trace.profile_typed (run (mount path) trace)
  /\ returns (render (state (run (mount path) trace))) = true.
Proof.
  intros path trace Ht.
  assert (H : forall trace c,
             Forall Trace.well_typed trace -> Trace.profile_typed c ->
             Trace.profile_typed (run c trace)).
  { unfold run. clear. induction trace as [|e trace IH]; intros c Ht Hc; cbn [fold_left].
    - exact Hc.
    - inversion Ht; subst. apply IH; [assumption | apply step_profile_typed; assumption]. }
  assert (Hc : Trace.profile_typed (run (mount path) trace))
    by (apply H; [exact Ht | left; reflexivity]).
  split; [exact Hc |].
  destruct (state (run (mount path) trace)) as [ud filter l] eqn:Hs.
  unfold Trace.profile_typed in Hc. rewrite Hs in Hc. cbn [userData] in Hc.
  destruct l; [reflexivity |].
  destruct Hc as [-> | (u & ->)]; [reflexivity |].
  destruct (render_user u filter) as (info & Hr & _). rewrite Hr. reflexivity.
Qed.

Lemma well_typed_responses_never_throw_witness :
  returns (render (state (run (mount "/octocat")
                              [Settle 0 (Resolved (User.payload (Some Sample.octocat)));
                               Elapse 3000]))) = true.
Proof.
  refine (proj2 (well_typed_responses_never_throw "/octocat"
                   [Settle 0 (Resolved (User.payload (Some Sample.octocat))); Elapse 3000] _)).
  repeat constructor. exists (Some Sample.octocat). reflexivity.
Defined.
